(** * horde-worker-reGen: the configuration model and the worker entry points

    A shallow embedding of
    - [horde_worker_regen/bridge_data/data_model.py] (class [reGenBridgeData]),
    - [horde_worker_regen/process_management/worker_entry_points.py],
    and the properties of the settings validator, of the settings' own
    operations and of the two process entry points. *)

From Stdlib Require Import ZArith QArith Lia.
From stdpp Require Import base decidable option list strings pretty gmap.

Local Open Scope Z_scope.
Local Open Scope string_scope.

(** ** Python values used by the settings *)

Module Py.

(** A Python [float]: finite values as rationals, and the three values
    that are not numbers of the real line. *)
Inductive PyFloat : Type :=
| Finite (q : Q)
| PlusInf
| MinusInf
| NaN.

(** [x >= y] and [x <= y] on floats; every comparison with NaN is false. *)
Definition float_ge (x y : PyFloat) : bool :=
  match x, y with
  | NaN, _ | _, NaN => false
  | _, MinusInf | PlusInf, _ => true
  | MinusInf, _ | _, PlusInf => false
  | Finite a, Finite b => Qle_bool b a
  end.

Definition float_le (x y : PyFloat) : bool := float_ge y x.

(** The values held by the entries of [custom_models] (a [list[dict]]). *)
Inductive PyVal : Type :=
| PNone
| PBool (b : bool)
| PInt (z : Z)
| PStr (s : string).

(** Truth value of an object, as [if x:] and [not x] take it. *)
Definition truthy (v : PyVal) : bool :=
  match v with
  | PNone => false
  | PBool b => b
  | PInt z => negb (Z.eqb z 0)
  | PStr s => negb (String.eqb s "")
  end.

Definition str_truthy (s : string) : bool := negb (String.eqb s "").

(** [x == y], as a [dict] compares its keys ([True == 1] and [False == 0]). *)
Definition py_eqb (x y : PyVal) : bool :=
  match x, y with
  | PNone, PNone => true
  | PBool a, PBool b => Bool.eqb a b
  | PInt a, PInt b => Z.eqb a b
  | PStr a, PStr b => String.eqb a b
  | PBool a, PInt b | PInt b, PBool a => Z.eqb b (if a then 1 else 0)
  | _, _ => false
  end.

Abbreviation PyDict := (gmap string PyVal).

(** [d.get(k)]: the value, or [None] for a missing key. *)
Definition dict_get (d : PyDict) (k : string) : PyVal := default PNone (d !! k).

(** loguru levels used by the sources. *)
Inductive LogLevel : Type := DEBUG | INFO | WARNING | ERROR.

Record LogRecord : Type := { level : LogLevel; message : string }.

End Py.
Import Py.

(** ** pydantic field declarations *)

Module Pydantic.

(** [Field(default=..., ge=..., le=..., lt=...)] of an [int] field. *)
Record IntField : Type := {
  default : Z;
  ge : option Z;
  le : option Z;
  lt : option Z;
}.

Definition int_field (d : Z) : IntField :=
  {| default := d; ge := None; le := None; lt := None |}.

(** The constraints of a field, checked on a value the user supplied. *)
Definition int_ok (f : IntField) (v : Z) : bool :=
  from_option (fun b => bool_decide (v >= b)) true (ge f)
  && from_option (fun b => bool_decide (v <= b)) true (le f)
  && from_option (fun b => bool_decide (v < b)) true (lt f).

(** One entry of a [ValidationError]: the name of the offending field. *)
Definition ErrorLoc : Type := string.

(** Validation of one field: a missing key takes the default (defaults are
    not validated), a supplied value is checked against the constraints. *)
Definition validate_with {A} (ok : A -> bool) (dflt : A) (loc : ErrorLoc)
    (raw : option A) : list ErrorLoc * A :=
  match raw with
  | None => ([], dflt)
  | Some v => if ok v then ([], v) else ([loc], v)
  end.

Definition validate_int (f : IntField) : ErrorLoc -> option Z -> list ErrorLoc * Z :=
  validate_with (int_ok f) (default f).

Definition validate_plain {A} (dflt : A) : option A -> A := from_option id dflt.

End Pydantic.

(** ** The settings model *)

Module BridgeData.

(** The fields of [reGenBridgeData]. The first seven are inherited from
    the SDK's [CombinedHordeBridgeData] and are the inherited fields this
    class reads or assigns; the others are declared by the class itself,
    in the order of the source. *)
Record reGenBridgeData : Type := {
  max_threads : Z;
  queue_size : Z;
  extra_slow_worker : bool;
  dreamer_worker_name : string;
  models_folder_parent : string;
  horde_url : string;
  max_lora_cache_size : Z;
  disable_terminal_ui : bool;
  safety_on_gpu : bool;
  cycle_process_on_model_change : bool;
  CIVIT_API_TOKEN : option string;
  unload_models_from_vram_often : bool;
  process_timeout : Z;
  post_process_timeout : Z;
  download_timeout : Z;
  preload_timeout : Z;
  inference_step_timeout : Z;
  minutes_allowed_without_jobs : Z;
  horde_model_stickiness : PyFloat;
  high_memory_mode : bool;
  very_high_memory_mode : bool;
  high_performance_mode : bool;
  moderate_performance_mode : bool;
  very_fast_disk_mode : bool;
  post_process_job_overlap : bool;
  capture_kudos_training_data : bool;
  kudos_training_data_file : option string;
  exit_on_unhandled_faults : bool;
  purge_loras_on_download : bool;
  remove_maintenance_on_init : bool;
  load_large_models : bool;
  custom_models : list PyDict;
  limited_console_messages : bool;
}.

(** An attribute assignment [self.<field> = v] made by the validator. *)
Inductive Assignment : Type :=
| Set_queue_size (v : Z)
| Set_process_timeout (v : Z)
| Set_high_performance_mode (v : bool)
| Set_moderate_performance_mode (v : bool)
| Set_high_memory_mode (v : bool)
| Set_very_high_memory_mode (v : bool)
| Set_max_threads (v : Z)
| Set_preload_timeout (v : Z)
| Set_cycle_process_on_model_change (v : bool).

Definition setattr (a : Assignment) (self : reGenBridgeData) : reGenBridgeData :=
  {| max_threads := match a with Set_max_threads v => v | _ => max_threads self end;
     queue_size :=
       match a with Set_queue_size v => v | _ => queue_size self end;
     extra_slow_worker := extra_slow_worker self;
     dreamer_worker_name := dreamer_worker_name self;
     models_folder_parent := models_folder_parent self;
     horde_url := horde_url self;
     max_lora_cache_size := max_lora_cache_size self;
     disable_terminal_ui := disable_terminal_ui self;
     safety_on_gpu := safety_on_gpu self;
     cycle_process_on_model_change :=
       match a with
       | Set_cycle_process_on_model_change v => v
       | _ => cycle_process_on_model_change self
       end;
     CIVIT_API_TOKEN := CIVIT_API_TOKEN self;
     unload_models_from_vram_often := unload_models_from_vram_often self;
     process_timeout :=
       match a with Set_process_timeout v => v | _ => process_timeout self end;
     post_process_timeout := post_process_timeout self;
     download_timeout := download_timeout self;
     preload_timeout :=
       match a with Set_preload_timeout v => v | _ => preload_timeout self end;
     inference_step_timeout := inference_step_timeout self;
     minutes_allowed_without_jobs := minutes_allowed_without_jobs self;
     horde_model_stickiness := horde_model_stickiness self;
     high_memory_mode :=
       match a with Set_high_memory_mode v => v | _ => high_memory_mode self end;
     very_high_memory_mode :=
       match a with Set_very_high_memory_mode v => v | _ => very_high_memory_mode self end;
     high_performance_mode :=
       match a with Set_high_performance_mode v => v | _ => high_performance_mode self end;
     moderate_performance_mode :=
       match a with Set_moderate_performance_mode v => v | _ => moderate_performance_mode self end;
     very_fast_disk_mode := very_fast_disk_mode self;
     post_process_job_overlap := post_process_job_overlap self;
     capture_kudos_training_data := capture_kudos_training_data self;
     kudos_training_data_file := kudos_training_data_file self;
     exit_on_unhandled_faults := exit_on_unhandled_faults self;
     purge_loras_on_download := purge_loras_on_download self;
     remove_maintenance_on_init := remove_maintenance_on_init self;
     load_large_models := load_large_models self;
     custom_models := custom_models self;
     limited_console_messages := limited_console_messages self |}.

(** The declarations of the [int] fields of the class. *)
Definition process_timeout_field : Pydantic.IntField := Pydantic.int_field 300.
Definition post_process_timeout_field : Pydantic.IntField :=
  {| Pydantic.default := 60; Pydantic.ge := Some 15; Pydantic.le := None; Pydantic.lt := None |}.
Definition preload_timeout_field : Pydantic.IntField :=
  {| Pydantic.default := 80; Pydantic.ge := Some 15; Pydantic.le := None; Pydantic.lt := None |}.
Definition inference_step_timeout_field : Pydantic.IntField :=
  {| Pydantic.default := 15; Pydantic.ge := Some 15; Pydantic.le := Some 30;
     Pydantic.lt := None |}.
Definition minutes_allowed_without_jobs_field : Pydantic.IntField :=
  {| Pydantic.default := 30; Pydantic.ge := Some 0; Pydantic.le := None;
     Pydantic.lt := Some (60 * 60) |}.

(** *** The state a method runs in *)

(** A [YAML()] loader object. *)
Inductive YAML : Type := YAML_loader.

(** One entry of the dictionary written to [custom_models.json]. *)
Record CustomModelEntry : Type := {
  cm_name : PyVal;
  cm_baseline : PyVal;
  cm_type : string;
  cm_config_files_path : PyVal;
}.

(** A [dict] built by item assignment: the keys in insertion order. *)
Definition OrderedDict (V : Type) : Type := list (PyVal * V).

(** [d[k] = v]: the value of an existing key is replaced in place, a new
    key is appended. *)
Fixpoint dict_setitem {V} (d : OrderedDict V) (k : PyVal) (v : V) : OrderedDict V :=
  match d with
  | [] => [(k, v)]
  | (k', v') :: d' => if py_eqb k' k then (k', v) :: d' else (k', v') :: dict_setitem d' k v
  end.

(** What a file holds: the object that was dumped into it. *)
Inductive FileContent : Type :=
| JsonDump (custom_models_dict : OrderedDict CustomModelEntry)
| YamlDump (model_dump : reGenBridgeData).

(** The model instance with its two private attributes, the process
    environment [os.environ], the working directory, the files and the
    log. *)
Record PyState : Type := {
  self_fields : reGenBridgeData;
  _loaded_from_env_vars : bool;
  _yaml_loader : option YAML;
  environ : gmap string string;
  cwd : string;
  files : gmap string FileContent;
  log : list LogRecord;
}.

Definition Method (A : Type) : Type := PyState -> A * PyState.

#[export] Instance Method_ret : MRet Method := fun A x st => (x, st).
#[export] Instance Method_bind : MBind Method :=
  fun A B f m st => let '(x, st') := m st in f x st'.

Definition exec {A} (m : Method A) (st : PyState) : PyState := snd (m st).

(** Reading [self]. *)
Definition get_self : Method reGenBridgeData := fun st => (self_fields st, st).

(** [self.<field> = v]. *)
Definition assign (a : Assignment) : Method unit := fun st =>
  (tt, {| self_fields := setattr a (self_fields st);
          _loaded_from_env_vars := _loaded_from_env_vars st;
          _yaml_loader := _yaml_loader st; environ := environ st; cwd := cwd st;
          files := files st; log := log st |}).

(** [logger.<level>(msg)]. *)
Definition logger (lvl : LogLevel) (msg : string) : Method unit := fun st =>
  (tt, {| self_fields := self_fields st;
          _loaded_from_env_vars := _loaded_from_env_vars st;
          _yaml_loader := _yaml_loader st; environ := environ st; cwd := cwd st;
          files := files st;
          log := log st ++ [{| level := lvl; message := msg |}] |}).

(** [if c: body] without an [else]. *)
Definition when (c : bool) (body : Method unit) : Method unit :=
  if c then body else mret tt.

(** *** [validate_performance_modes] (the [model_validator] run after the fields) *)

Definition validate_performance_modes : Method reGenBridgeData :=
  self ← get_self;
  when (bool_decide (max_threads self >= 2) && bool_decide (queue_size self > 3)) (
    assign (Set_queue_size 3);;
    logger WARNING
      "The queue_size value has been set to 3 because the max_threads value is 2.");;

  self ← get_self;
  (if high_performance_mode self then
     let process_timeout_changed_message :=
       "High performance mode is enabled, so the process_timeout value has "
       +:+ "been set to 1/3 of the default value. The new value is "
       +:+ pretty (process_timeout self) +:+ "." in
     let default_process_timeout := Pydantic.default process_timeout_field in
     (if bool_decide (process_timeout self = default_process_timeout)
      then logger DEBUG process_timeout_changed_message
      else logger WARNING process_timeout_changed_message);;
     assign (Set_process_timeout (default_process_timeout `div` 3))
   else if moderate_performance_mode self then
     let process_timeout_changed_message :=
       "Moderate performance mode is enabled, so the process_timeout value has "
       +:+ "been set to 1/2 of the default value. The new value is "
       +:+ pretty (process_timeout self) +:+ "." in
     let default_process_timeout := Pydantic.default process_timeout_field in
     (if bool_decide (process_timeout self = default_process_timeout)
      then logger DEBUG process_timeout_changed_message
      else logger WARNING process_timeout_changed_message);;
     assign (Set_process_timeout (default_process_timeout `div` 2))
   else mret tt);;

  self ← get_self;
  when (extra_slow_worker self) (
    self ← get_self;
    when (high_performance_mode self) (
      assign (Set_high_performance_mode false);;
      logger WARNING
        "Extra slow worker is enabled, so the high_performance_mode value has been set to False.");;
    self ← get_self;
    when (moderate_performance_mode self) (
      assign (Set_moderate_performance_mode false);;
      logger WARNING
        "Extra slow worker is enabled, so the moderate_performance_mode value has been set to False.");;
    self ← get_self;
    when (high_memory_mode self) (
      assign (Set_high_memory_mode false);;
      logger WARNING
        "Extra slow worker is enabled, so the high_memory_mode value has been set to False.");;
    self ← get_self;
    when (very_high_memory_mode self) (
      assign (Set_very_high_memory_mode false);;
      logger WARNING
        "Extra slow worker is enabled, so the very_high_memory_mode value has been set to False.");;
    self ← get_self;
    when (bool_decide (queue_size self > 0)) (
      assign (Set_queue_size 0);;
      logger WARNING
        ("Extra slow worker is enabled, so the queue_size value has been set to 0. "
         +:+ "This behavior may change in the future."));;
    self ← get_self;
    when (bool_decide (max_threads self > 1)) (
      assign (Set_max_threads 1);;
      logger WARNING
        ("Extra slow worker is enabled, so the max_threads value has been set to 1. "
         +:+ "This behavior may change in the future."));;
    self ← get_self;
    when (bool_decide (preload_timeout self < 120)) (
      assign (Set_preload_timeout 120);;
      logger WARNING
        ("Extra slow worker is enabled, so the preload_timeout value has been set to 120. "
         +:+ "This behavior may change in the future.")));;

  self ← get_self;
  when (very_high_memory_mode self && negb (high_memory_mode self)) (
    assign (Set_high_memory_mode true);;
    logger DEBUG
      "Very high memory mode is enabled, so the high_memory_mode value has been set to True.");;

  self ← get_self;
  when (high_memory_mode self) (
    self ← get_self;
    when (bool_decide (max_threads self = 1)) (
      logger WARNING
        "High memory mode is enabled, you should consider setting max_threads to 2.");;
    self ← get_self;
    when (bool_decide (queue_size self = 0)) (
      logger WARNING
        ("High memory mode is enabled, you should consider setting queue_size to 1 or higher. "
         +:+ "Increasing this value increases system memory usage. See the bridgeData_template.yaml for more "
         +:+ "information."));;
    self ← get_self;
    when (unload_models_from_vram_often self) (
      logger WARNING
        "High memory mode is enabled, you should consider setting unload_models_from_vram_often to False.");;
    self ← get_self;
    when (cycle_process_on_model_change self) (
      assign (Set_cycle_process_on_model_change false);;
      logger WARNING
        "High memory mode is enabled, so the cycle_process_on_model_change value has been set to False."));;

  get_self.


(** *** The environment, the files and the private attributes *)

(** [os.getenv(k)] and [os.environ.get(k)]. *)
Definition getenv (k : string) : Method (option string) := fun st => (environ st !! k, st).

(** [os.environ[k] = v]. *)
Definition setenv (k v : string) : Method unit := fun st =>
  (tt, {| self_fields := self_fields st;
          _loaded_from_env_vars := _loaded_from_env_vars st;
          _yaml_loader := _yaml_loader st; environ := <[k := v]> (environ st);
          cwd := cwd st; files := files st; log := log st |}).

(** [os.getcwd()]. *)
Definition getcwd : Method string := fun st => (cwd st, st).

(** [os.path.exists(p)]. *)
Definition path_exists (p : string) : Method bool := fun st =>
  (bool_decide (is_Some (files st !! p)), st).

(** [os.remove(p)]. *)
Definition remove (p : string) : Method unit := fun st =>
  (tt, {| self_fields := self_fields st;
          _loaded_from_env_vars := _loaded_from_env_vars st;
          _yaml_loader := _yaml_loader st; environ := environ st; cwd := cwd st;
          files := delete p (files st); log := log st |}).

(** [with open(p, "w") as f: <dump content into f>]. *)
Definition write_file (p : string) (content : FileContent) : Method unit := fun st =>
  (tt, {| self_fields := self_fields st;
          _loaded_from_env_vars := _loaded_from_env_vars st;
          _yaml_loader := _yaml_loader st; environ := environ st; cwd := cwd st;
          files := <[p := content]> (files st); log := log st |}).

Definition get_yaml_loader : Method (option YAML) := fun st => (_yaml_loader st, st).

(** [self._yaml_loader = v]. *)
Definition set_yaml_loader (v : option YAML) : Method unit := fun st =>
  (tt, {| self_fields := self_fields st;
          _loaded_from_env_vars := _loaded_from_env_vars st;
          _yaml_loader := v; environ := environ st; cwd := cwd st;
          files := files st; log := log st |}).

(** Truth value of what [os.getenv] returns: set, and not the empty string. *)
Definition env_truthy (v : option string) : bool := from_option str_truthy false v.

(** *** [validate_dreamer_worker_name] (a [field_validator], mode "after") *)

Definition validate_dreamer_worker_name (value : string) : Method string :=
  AIWORKER_DREAMER_WORKER_NAME ← getenv "AIWORKER_DREAMER_WORKER_NAME";
  if env_truthy AIWORKER_DREAMER_WORKER_NAME then
    logger WARNING
      ("AIWORKER_DREAMER_WORKER_NAME environment variable is set. This will override the value for "
       +:+ "`dreamer_worker_name` in the config file.");;
    mret (default "" AIWORKER_DREAMER_WORKER_NAME)
  else mret value.

(** *** [prepare_custom_models] *)

Section CustomModels.

(** The text an f-string gives for a [dict] (its [repr]); it only goes
    into log messages. *)
Variable repr : PyDict -> string.

(** The body of [for model in self.custom_models], with the local
    [custom_models_dict] as accumulator. *)
Fixpoint collect_custom_models (models : list PyDict)
    (custom_models_dict : OrderedDict CustomModelEntry)
    : Method (OrderedDict CustomModelEntry) :=
  match models with
  | [] => mret custom_models_dict
  | model :: rest =>
      if negb (truthy (dict_get model "name")) then
        logger WARNING
          ("Model name not specified for custom model entry " +:+ repr model +:+ ". Skipping");;
        collect_custom_models rest custom_models_dict
      else if negb (truthy (dict_get model "baseline")) then
        logger WARNING
          ("Model baseline not specified for custom model entry " +:+ repr model
           +:+ ". Skipping");;
        collect_custom_models rest custom_models_dict
      else if negb (truthy (dict_get model "filepath")) then
        logger WARNING
          ("Model filepath not specified for custom model entry " +:+ repr model
           +:+ ". Skipping");;
        collect_custom_models rest custom_models_dict
      else
        collect_custom_models rest
          (dict_setitem custom_models_dict (dict_get model "name")
             {| cm_name := dict_get model "name";
                cm_baseline := dict_get model "baseline";
                cm_type := "ckpt";
                cm_config_files_path := dict_get model "filepath" |})
  end.

Definition prepare_custom_models : Method unit :=
  HORDELIB_CUSTOM_MODELS ← getenv "HORDELIB_CUSTOM_MODELS";
  if env_truthy HORDELIB_CUSTOM_MODELS then
    logger INFO
      ("HORDELIB_CUSTOM_MODELS already set to '" +:+ default "" HORDELIB_CUSTOM_MODELS
       +:+ ". Doing nothing for custom models.")
  else
    self ← get_self;
    custom_models_dict ← collect_custom_models (custom_models self) [];
    cwd ← getcwd;
    (if bool_decide (0 < length custom_models_dict)%nat then
       write_file (cwd +:+ "/custom_models.json") (JsonDump custom_models_dict)
     else
       p ← path_exists (cwd +:+ "/custom_models.json");
       when p (remove (cwd +:+ "/custom_models.json")));;
    setenv "HORDELIB_CUSTOM_MODELS" (cwd +:+ "/custom_models.json").

End CustomModels.

(** *** [load_custom_models] (a static method) *)

Definition load_custom_models : Method unit :=
  cwd ← getcwd;
  HORDELIB_CUSTOM_MODELS ← getenv "HORDELIB_CUSTOM_MODELS";
  p ← path_exists (cwd +:+ "/custom_models.json");
  when (negb (env_truthy HORDELIB_CUSTOM_MODELS) && p) (
    setenv "HORDELIB_CUSTOM_MODELS" (cwd +:+ "/custom_models.json");;
    logger DEBUG ("HORDELIB_CUSTOM_MODELS: " +:+ cwd +:+ "/custom_models.json")).

(** *** [load_env_vars] *)

Definition load_env_vars : Method unit :=
  self ← get_self;
  AIWORKER_CACHE_HOME ← getenv "AIWORKER_CACHE_HOME";
  when (str_truthy (models_folder_parent self) && bool_decide (AIWORKER_CACHE_HOME = None)) (
    setenv "AIWORKER_CACHE_HOME" (models_folder_parent self));;
  when (str_truthy (horde_url self)) (
    AI_HORDE_URL ← getenv "AI_HORDE_URL";
    if env_truthy AI_HORDE_URL then
      logger WARNING
        ("AI_HORDE_URL environment variable already set. This will override the value for `horde_url` in "
         +:+ "the config file.")
    else
      AI_HORDE_DEV_URL ← getenv "AI_HORDE_DEV_URL";
      when (env_truthy AI_HORDE_DEV_URL) (
        logger WARNING
          ("AI_HORDE_DEV_URL environment variable already set. This will override the value for "
           +:+ "`horde_url` in the config file."));;
      AI_HORDE_URL ← getenv "AI_HORDE_URL";
      if bool_decide (AI_HORDE_URL = None) then
        setenv "AI_HORDE_URL" (horde_url self)
      else
        logger WARNING
          ("AI_HORDE_URL environment variable already set. This will override the value for `horde_url` "
           +:+ "in the config file."));;
  match CIVIT_API_TOKEN self with
  | Some token => setenv "CIVIT_API_TOKEN" token
  | None => mret tt
  end;;
  AIWORKER_LORA_CACHE_SIZE ← getenv "AIWORKER_LORA_CACHE_SIZE";
  when (negb (Z.eqb (max_lora_cache_size self) 0)
        && bool_decide (AIWORKER_LORA_CACHE_SIZE = None)) (
    setenv "AIWORKER_LORA_CACHE_SIZE" (pretty (max_lora_cache_size self * 1024)));;
  when (load_large_models self) (
    setenv "AI_HORDE_MODEL_META_LARGE_MODELS" "1").

(** *** [save] *)

Definition save (file_path : string) : Method unit :=
  loader ← get_yaml_loader;
  when (bool_decide (loader = None)) (set_yaml_loader (Some YAML_loader));;
  self ← get_self;
  write_file file_path (YamlDump self).

(** *** Construction of the model from the user's configuration *)

(** The configuration as read from the file: one entry per key, [None]
    for a key that is absent. The values are already of the type of their
    field (a value of another type is outside this model). The keys
    [civitai_api_token] and [model_stickiness] are the aliases of
    [CIVIT_API_TOKEN] and [horde_model_stickiness]. [inherited_errors]
    stands for the validation errors of the inherited fields that are
    not part of [reGenBridgeData] as modelled here. *)
Record RawInput : Type := {
  raw_max_threads : option (Z);
  raw_queue_size : option (Z);
  raw_extra_slow_worker : option (bool);
  raw_dreamer_worker_name : option (string);
  raw_models_folder_parent : option (string);
  raw_horde_url : option (string);
  raw_max_lora_cache_size : option (Z);
  raw_disable_terminal_ui : option (bool);
  raw_safety_on_gpu : option (bool);
  raw_cycle_process_on_model_change : option (bool);
  raw_civitai_api_token : option (option string);
  raw_unload_models_from_vram_often : option (bool);
  raw_process_timeout : option (Z);
  raw_post_process_timeout : option (Z);
  raw_download_timeout : option (Z);
  raw_preload_timeout : option (Z);
  raw_inference_step_timeout : option (Z);
  raw_minutes_allowed_without_jobs : option (Z);
  raw_model_stickiness : option (PyFloat);
  raw_high_memory_mode : option (bool);
  raw_very_high_memory_mode : option (bool);
  raw_high_performance_mode : option (bool);
  raw_moderate_performance_mode : option (bool);
  raw_very_fast_disk_mode : option (bool);
  raw_post_process_job_overlap : option (bool);
  raw_capture_kudos_training_data : option (bool);
  raw_kudos_training_data_file : option (option string);
  raw_exit_on_unhandled_faults : option (bool);
  raw_purge_loras_on_download : option (bool);
  raw_remove_maintenance_on_init : option (bool);
  raw_load_large_models : option (bool);
  raw_custom_models : option (list PyDict);
  raw_limited_console_messages : option (bool);
  inherited_errors : list Pydantic.ErrorLoc;
}.

(** The configuration with no key at all. *)
Definition empty_input : RawInput :=
  {| raw_max_threads := None;
     raw_queue_size := None;
     raw_extra_slow_worker := None;
     raw_dreamer_worker_name := None;
     raw_models_folder_parent := None;
     raw_horde_url := None;
     raw_max_lora_cache_size := None;
     raw_disable_terminal_ui := None;
     raw_safety_on_gpu := None;
     raw_cycle_process_on_model_change := None;
     raw_civitai_api_token := None;
     raw_unload_models_from_vram_often := None;
     raw_process_timeout := None;
     raw_post_process_timeout := None;
     raw_download_timeout := None;
     raw_preload_timeout := None;
     raw_inference_step_timeout := None;
     raw_minutes_allowed_without_jobs := None;
     raw_model_stickiness := None;
     raw_high_memory_mode := None;
     raw_very_high_memory_mode := None;
     raw_high_performance_mode := None;
     raw_moderate_performance_mode := None;
     raw_very_fast_disk_mode := None;
     raw_post_process_job_overlap := None;
     raw_capture_kudos_training_data := None;
     raw_kudos_training_data_file := None;
     raw_exit_on_unhandled_faults := None;
     raw_purge_loras_on_download := None;
     raw_remove_maintenance_on_init := None;
     raw_load_large_models := None;
     raw_custom_models := None;
     raw_limited_console_messages := None;
     inherited_errors := [] |}.

(** The new instance takes the place of [self]; its private attributes
    start at the defaults of the class. *)
Definition set_instance (s : reGenBridgeData) : Method unit := fun st =>
  (tt, {| self_fields := s; _loaded_from_env_vars := false; _yaml_loader := None;
          environ := environ st; cwd := cwd st; files := files st; log := log st |}).

Section Construction.

(** [horde_worker_regen.consts.TOTAL_LORA_DOWNLOAD_TIMEOUT]. *)
Variable TOTAL_LORA_DOWNLOAD_TIMEOUT : Z.

(** The declarations of the inherited fields, made by the SDK. *)
Variables max_threads_field queue_size_field max_lora_cache_size_field : Pydantic.IntField.
Variable extra_slow_worker_default : bool.
Variables dreamer_worker_name_default models_folder_parent_default horde_url_default : string.

Definition download_timeout_field : Pydantic.IntField :=
  Pydantic.int_field (TOTAL_LORA_DOWNLOAD_TIMEOUT + 1).

(** [Field(default=0.0, le=1.0, ge=0.0, alias="model_stickiness")]. *)
Definition horde_model_stickiness_ok (v : PyFloat) : bool :=
  float_le v (Finite 1) && float_ge v (Finite 0).

(** The errors of the constrained fields, in the order of the fields. *)
Definition field_errors (raw : RawInput) : list Pydantic.ErrorLoc :=
  (Pydantic.validate_int max_threads_field "max_threads" (raw_max_threads raw)).1
  ++ (Pydantic.validate_int queue_size_field "queue_size" (raw_queue_size raw)).1
  ++ (Pydantic.validate_int max_lora_cache_size_field "max_lora_cache_size"
        (raw_max_lora_cache_size raw)).1
  ++ inherited_errors raw
  ++ (Pydantic.validate_int process_timeout_field "process_timeout"
        (raw_process_timeout raw)).1
  ++ (Pydantic.validate_int post_process_timeout_field "post_process_timeout"
        (raw_post_process_timeout raw)).1
  ++ (Pydantic.validate_int download_timeout_field "download_timeout"
        (raw_download_timeout raw)).1
  ++ (Pydantic.validate_int preload_timeout_field "preload_timeout"
        (raw_preload_timeout raw)).1
  ++ (Pydantic.validate_int inference_step_timeout_field "inference_step_timeout"
        (raw_inference_step_timeout raw)).1
  ++ (Pydantic.validate_int minutes_allowed_without_jobs_field
        "minutes_allowed_without_jobs" (raw_minutes_allowed_without_jobs raw)).1
  ++ (Pydantic.validate_with horde_model_stickiness_ok (Finite 0) "model_stickiness"
        (raw_model_stickiness raw)).1.

(** The fields after their own validation: supplied values, defaults
    for the absent keys. *)
Definition validated_fields (raw : RawInput) (dreamer_worker_name' : string)
    : reGenBridgeData :=
  {| max_threads :=
       (Pydantic.validate_int max_threads_field "max_threads" (raw_max_threads raw)).2;
     queue_size :=
       (Pydantic.validate_int queue_size_field "queue_size" (raw_queue_size raw)).2;
     extra_slow_worker :=
       Pydantic.validate_plain extra_slow_worker_default (raw_extra_slow_worker raw);
     dreamer_worker_name := dreamer_worker_name';
     models_folder_parent :=
       Pydantic.validate_plain models_folder_parent_default (raw_models_folder_parent raw);
     horde_url := Pydantic.validate_plain horde_url_default (raw_horde_url raw);
     max_lora_cache_size :=
       (Pydantic.validate_int max_lora_cache_size_field "max_lora_cache_size"
          (raw_max_lora_cache_size raw)).2;
     disable_terminal_ui := Pydantic.validate_plain true (raw_disable_terminal_ui raw);
     safety_on_gpu := Pydantic.validate_plain false (raw_safety_on_gpu raw);
     cycle_process_on_model_change :=
       Pydantic.validate_plain false (raw_cycle_process_on_model_change raw);
     CIVIT_API_TOKEN := Pydantic.validate_plain None (raw_civitai_api_token raw);
     unload_models_from_vram_often :=
       Pydantic.validate_plain true (raw_unload_models_from_vram_often raw);
     process_timeout :=
       (Pydantic.validate_int process_timeout_field "process_timeout"
          (raw_process_timeout raw)).2;
     post_process_timeout :=
       (Pydantic.validate_int post_process_timeout_field "post_process_timeout"
          (raw_post_process_timeout raw)).2;
     download_timeout :=
       (Pydantic.validate_int download_timeout_field "download_timeout"
          (raw_download_timeout raw)).2;
     preload_timeout :=
       (Pydantic.validate_int preload_timeout_field "preload_timeout"
          (raw_preload_timeout raw)).2;
     inference_step_timeout :=
       (Pydantic.validate_int inference_step_timeout_field "inference_step_timeout"
          (raw_inference_step_timeout raw)).2;
     minutes_allowed_without_jobs :=
       (Pydantic.validate_int minutes_allowed_without_jobs_field
          "minutes_allowed_without_jobs" (raw_minutes_allowed_without_jobs raw)).2;
     horde_model_stickiness :=
       (Pydantic.validate_with horde_model_stickiness_ok (Finite 0) "model_stickiness"
          (raw_model_stickiness raw)).2;
     high_memory_mode := Pydantic.validate_plain true (raw_high_memory_mode raw);
     very_high_memory_mode := Pydantic.validate_plain false (raw_very_high_memory_mode raw);
     high_performance_mode := Pydantic.validate_plain true (raw_high_performance_mode raw);
     moderate_performance_mode :=
       Pydantic.validate_plain false (raw_moderate_performance_mode raw);
     very_fast_disk_mode := Pydantic.validate_plain false (raw_very_fast_disk_mode raw);
     post_process_job_overlap :=
       Pydantic.validate_plain false (raw_post_process_job_overlap raw);
     capture_kudos_training_data :=
       Pydantic.validate_plain false (raw_capture_kudos_training_data raw);
     kudos_training_data_file :=
       Pydantic.validate_plain None (raw_kudos_training_data_file raw);
     exit_on_unhandled_faults :=
       Pydantic.validate_plain false (raw_exit_on_unhandled_faults raw);
     purge_loras_on_download :=
       Pydantic.validate_plain false (raw_purge_loras_on_download raw);
     remove_maintenance_on_init :=
       Pydantic.validate_plain false (raw_remove_maintenance_on_init raw);
     load_large_models := Pydantic.validate_plain true (raw_load_large_models raw);
     custom_models := Pydantic.validate_plain [] (raw_custom_models raw);
     limited_console_messages :=
       Pydantic.validate_plain false (raw_limited_console_messages raw) |}.

(** [reGenBridgeData.model_validate(raw)]: the fields are validated one
    by one (a field validator runs on a supplied value only), all
    errors are collected and raised together as one [ValidationError]
    ([inl]); without errors the instance is created and the "after"
    model validator runs on it. *)
Definition model_validate (raw : RawInput)
    : Method (list Pydantic.ErrorLoc + reGenBridgeData) :=
  dreamer_worker_name' ←
    match raw_dreamer_worker_name raw with
    | Some value => validate_dreamer_worker_name value
    | None => mret dreamer_worker_name_default
    end;
  if bool_decide (field_errors raw = []) then
    set_instance (validated_fields raw dreamer_worker_name');;
    self ← validate_performance_modes;
    mret (inr self)
  else mret (inl (field_errors raw)).

End Construction.

End BridgeData.

(** ** The entry points of the worker processes *)

Module EntryPoints.

(** The objects handed to a worker process by the process that spawns it. *)
Record ProcessQueue : Type := { queue_id : nat }.
Record Connection : Type := { connection_id : nat }.
Record Semaphore : Type := { semaphore_id : nat }.
Record Lock : Type := { lock_id : nat }.

Inductive PyObject : Type :=
| OInt (z : Z)
| OBool (b : bool)
| OQueue (q : ProcessQueue)
| OConnection (c : Connection)
| OSemaphore (s : Semaphore)
| OLock (l : Lock).

Definition is_semaphore (o : PyObject) : bool :=
  match o with OSemaphore _ => true | _ => false end.

(** The keyword arguments of a call, in the order they are written. *)
Definition Kwargs : Type := list (string * PyObject).

Fixpoint kwarg (kw : Kwargs) (name : string) : option PyObject :=
  match kw with
  | [] => None
  | (n, v) :: kw' => if String.eqb n name then Some v else kwarg kw' name
  end.

Inductive WorkerClass : Type := HordeInferenceProcess | HordeSafetyProcess.

(** A worker process object: its class and what its constructor was
    called with (the classes themselves are defined elsewhere). *)
Record WorkerProcess : Type := { class : WorkerClass; init_kwargs : Kwargs }.

(** An exception object, known by the classes of its type from the most
    specific one to [BaseException] (the method resolution order). *)
Record PyException : Type := { mro : list string }.

(** [issubclass(type(e), cls)]. *)
Definition issubclass (e : PyException) (cls : string) : bool :=
  bool_decide (cls ∈ mro e).

(** How a call ends. *)
Inductive Outcome : Type :=
| Returned
| Raised (e : PyException).

Inductive Stream : Type := console_stdout | console_stderr.

(** What the entry points touch in their process: [sys.stdout],
    [sys.stderr] ([None] is Python's [None]) and the exceptions that
    [logger.catch] reported. *)
Record ProcState : Type := {
  sys_stdout : option Stream;
  sys_stderr : option Stream;
  caught : list PyException;
}.

Definition Exec : Type := ProcState -> Outcome * ProcState.

(** A context manager: [__enter__] acts on the state and yields
    [__exit__], which is given the exception in flight, if any, and
    tells whether to suppress it. *)
Definition ExitFn : Type := option PyException -> ProcState -> bool * ProcState.
Definition ContextManager : Type := ProcState -> ProcState * ExitFn.

(** [with cm: body]. *)
Definition with_ (cm : ContextManager) (body : Exec) : Exec := fun st =>
  let '(st1, exit) := cm st in
  match body st1 with
  | (Returned, st2) => (Returned, snd (exit None st2))
  | (Raised e, st2) =>
      let '(suppress, st3) := exit (Some e) st2 in
      (if suppress then Returned else Raised e, st3)
  end.

(** loguru's [logger.catch()] with its defaults [exception=Exception],
    [reraise=False]: an exception that is an instance of [Exception] is
    logged and suppressed, any other is let through. *)
Definition logger_catch : ContextManager := fun st =>
  (st, fun exc st' =>
         match exc with
         | None => (false, st')
         | Some e =>
             if negb (issubclass e "Exception") then (false, st')
             else (true, {| sys_stdout := sys_stdout st'; sys_stderr := sys_stderr st';
                            caught := caught st' ++ [e] |})
         end).

(** [contextlib.redirect_stdout(new_target)]: [sys.stdout] is replaced
    on entry and put back on exit; the exception is not suppressed. *)
Definition redirect_stdout (new_target : option Stream) : ContextManager := fun st =>
  let old_target := sys_stdout st in
  ({| sys_stdout := new_target; sys_stderr := sys_stderr st; caught := caught st |},
   fun _ st' =>
     (false, {| sys_stdout := old_target; sys_stderr := sys_stderr st';
                caught := caught st' |})).

(** [contextlib.redirect_stderr(new_target)]. *)
Definition redirect_stderr (new_target : option Stream) : ContextManager := fun st =>
  let old_target := sys_stderr st in
  ({| sys_stdout := sys_stdout st; sys_stderr := new_target; caught := caught st |},
   fun _ st' =>
     (false, {| sys_stdout := sys_stdout st'; sys_stderr := old_target;
                caught := caught st' |})).

Section Entry.

(** [main_loop] of the worker classes: any behaviour that ends, by a
    return or by an exception. *)
Variable main_loop : WorkerProcess -> Exec.

Definition start_inference_process
    (process_id : Z)
    (process_message_queue : ProcessQueue)
    (pipe_connection : Connection)
    (inference_semaphore : Semaphore)
    (disk_lock : Lock) : Exec :=
  let worker_process :=
    {| class := HordeInferenceProcess;
       init_kwargs :=
         [("process_id", OInt process_id);
          ("process_message_queue", OQueue process_message_queue);
          ("pipe_connection", OConnection pipe_connection);
          ("inference_semaphore", OSemaphore inference_semaphore);
          ("disk_lock", OLock disk_lock)] |} in
  with_ logger_catch (with_ (redirect_stdout None) (with_ (redirect_stderr None) (
    main_loop worker_process))).

(** [cpu_only] has the default [True]: [None] is a call without it. *)
Definition start_safety_process
    (process_id : Z)
    (process_message_queue : ProcessQueue)
    (pipe_connection : Connection)
    (disk_lock : Lock)
    (cpu_only : option bool) : Exec :=
  let cpu_only := default true cpu_only in
  let worker_process :=
    {| class := HordeSafetyProcess;
       init_kwargs :=
         [("process_id", OInt process_id);
          ("process_message_queue", OQueue process_message_queue);
          ("pipe_connection", OConnection pipe_connection);
          ("disk_lock", OLock disk_lock);
          ("cpu_only", OBool cpu_only)] |} in
  with_ logger_catch (with_ (redirect_stdout None) (with_ (redirect_stderr None) (
    main_loop worker_process))).

End Entry.

End EntryPoints.

(** ** Assertions on methods *)

Module Assertions.
Import BridgeData.

(** [wp m Q st]: running [m] from [st] ends with a result and a state
    that satisfy [Q]. *)
Definition wp {A} (m : Method A) (Q : A -> PyState -> Prop) (st : PyState) : Prop :=
  Q (fst (m st)) (snd (m st)).

(** The assignment [a], made only if [c] holds, as an assignment that
    is always made. *)
Definition guard (c : bool) (a : Assignment) (s : reGenBridgeData) : Assignment :=
  match a with
  | Set_queue_size v => Set_queue_size (if c then v else queue_size s)
  | Set_process_timeout v => Set_process_timeout (if c then v else process_timeout s)
  | Set_high_performance_mode v =>
      Set_high_performance_mode (if c then v else high_performance_mode s)
  | Set_moderate_performance_mode v =>
      Set_moderate_performance_mode (if c then v else moderate_performance_mode s)
  | Set_high_memory_mode v => Set_high_memory_mode (if c then v else high_memory_mode s)
  | Set_very_high_memory_mode v =>
      Set_very_high_memory_mode (if c then v else very_high_memory_mode s)
  | Set_max_threads v => Set_max_threads (if c then v else max_threads s)
  | Set_preload_timeout v => Set_preload_timeout (if c then v else preload_timeout s)
  | Set_cycle_process_on_model_change v =>
      Set_cycle_process_on_model_change (if c then v else cycle_process_on_model_change s)
  end.

Definition with_self (s : reGenBridgeData) (st : PyState) : PyState :=
  {| self_fields := s; _loaded_from_env_vars := _loaded_from_env_vars st;
     _yaml_loader := _yaml_loader st; environ := environ st; cwd := cwd st;
     files := files st; log := log st |}.

Definition with_log (l : list LogRecord) (st : PyState) : PyState :=
  {| self_fields := self_fields st; _loaded_from_env_vars := _loaded_from_env_vars st;
     _yaml_loader := _yaml_loader st; environ := environ st; cwd := cwd st;
     files := files st; log := l |}.

(** The fields after [validate_performance_modes], in closed form (see
    [validate_performance_modes_resolved]). *)
Definition resolved (self : reGenBridgeData) : reGenBridgeData :=
  let esw := extra_slow_worker self in
  let q1 := if bool_decide (max_threads self >= 2) && bool_decide (queue_size self > 3)
            then 3 else queue_size self in
  let hm := if esw then false else high_memory_mode self || very_high_memory_mode self in
  setattr (Set_cycle_process_on_model_change
             (if hm then false else cycle_process_on_model_change self))
  (setattr (Set_high_memory_mode hm)
  (setattr (Set_preload_timeout
             (if esw && bool_decide (preload_timeout self < 120) then 120
              else preload_timeout self))
  (setattr (Set_max_threads
             (if esw && bool_decide (max_threads self > 1) then 1 else max_threads self))
  (setattr (Set_queue_size (if esw && bool_decide (q1 > 0) then 0 else q1))
  (setattr (Set_very_high_memory_mode (very_high_memory_mode self && negb esw))
  (setattr (Set_moderate_performance_mode (moderate_performance_mode self && negb esw))
  (setattr (Set_high_performance_mode (high_performance_mode self && negb esw))
  (setattr (Set_process_timeout
             (if high_performance_mode self then 100
              else if moderate_performance_mode self then 150 else process_timeout self))
     self)))))))).

(** [m] leaves the fields of [self] as they are. *)
Definition keeps_fields {A} (m : Method A) : Prop :=
  forall st, self_fields (snd (m st)) = self_fields st.

(** *** The construction of the model *)

Section ConstructionAssertions.

Variables max_threads_field queue_size_field max_lora_cache_size_field : Pydantic.IntField.
Variable TOTAL_LORA_DOWNLOAD_TIMEOUT : Z.

(** The errors of the fields other than the four timeouts
    [process_timeout], [post_process_timeout], [preload_timeout] and
    [inference_step_timeout]. *)
Definition other_field_errors (raw : RawInput) : list Pydantic.ErrorLoc :=
  (Pydantic.validate_int max_threads_field "max_threads" (raw_max_threads raw)).1
  ++ (Pydantic.validate_int queue_size_field "queue_size" (raw_queue_size raw)).1
  ++ (Pydantic.validate_int max_lora_cache_size_field "max_lora_cache_size"
        (raw_max_lora_cache_size raw)).1
  ++ inherited_errors raw
  ++ (Pydantic.validate_int (download_timeout_field TOTAL_LORA_DOWNLOAD_TIMEOUT)
        "download_timeout" (raw_download_timeout raw)).1
  ++ (Pydantic.validate_int minutes_allowed_without_jobs_field
        "minutes_allowed_without_jobs" (raw_minutes_allowed_without_jobs raw)).1
  ++ (Pydantic.validate_with horde_model_stickiness_ok (Finite 0) "model_stickiness"
        (raw_model_stickiness raw)).1.

End ConstructionAssertions.

(** [P] holds of the value of a key, if the key is there. *)
Definition supplied {A} (raw : option A) (P : A -> Prop) : Prop :=
  forall v, raw = Some v -> P v.

(** The supplied timeouts meet the bounds of their declarations. *)
Definition timeouts_in_bounds (raw : RawInput) : Prop :=
  supplied (raw_inference_step_timeout raw) (fun v => 15 <= v <= 30)
  /\ supplied (raw_preload_timeout raw) (fun v => 15 <= v)
  /\ supplied (raw_post_process_timeout raw) (fun v => 15 <= v).

(** *** The entry points *)

(** The three context managers both entry points run [main_loop] in. *)
Definition guarded (body : EntryPoints.Exec) : EntryPoints.Exec :=
  EntryPoints.with_ EntryPoints.logger_catch
    (EntryPoints.with_ (EntryPoints.redirect_stdout None)
       (EntryPoints.with_ (EntryPoints.redirect_stderr None) body)).

(** What leaves [logger.catch()] when [o] reaches it. *)
Definition after_catch (o : EntryPoints.Outcome) : EntryPoints.Outcome :=
  match o with
  | EntryPoints.Returned => EntryPoints.Returned
  | EntryPoints.Raised e =>
      if EntryPoints.issubclass e "Exception" then EntryPoints.Returned
      else EntryPoints.Raised e
  end.

(** The state [main_loop] starts in: both streams redirected to [None]. *)
Definition redirected (st : EntryPoints.ProcState) : EntryPoints.ProcState :=
  {| EntryPoints.sys_stdout := None; EntryPoints.sys_stderr := None;
     EntryPoints.caught := EntryPoints.caught st |}.

(** *** Concrete inputs *)

(** Declarations for the inherited fields, to run the construction on
    concrete configurations. *)
Definition example_max_threads_field : Pydantic.IntField :=
  {| Pydantic.default := 1; Pydantic.ge := Some 1; Pydantic.le := Some 16;
     Pydantic.lt := None |}.
Definition example_queue_size_field : Pydantic.IntField :=
  {| Pydantic.default := 1; Pydantic.ge := Some 0; Pydantic.le := Some 4;
     Pydantic.lt := None |}.
Definition example_max_lora_cache_size_field : Pydantic.IntField :=
  {| Pydantic.default := 10; Pydantic.ge := Some 10; Pydantic.le := Some 2048;
     Pydantic.lt := None |}.

(** [model_validate] with these declarations. *)
Definition example_model_validate
    : RawInput -> Method (list Pydantic.ErrorLoc + reGenBridgeData) :=
  model_validate 1800 example_max_threads_field example_queue_size_field
    example_max_lora_cache_size_field false "An Awesome Dreamer" "./" "https://aihorde.net/api/".

(** A configuration in which only the four timeouts may be present. *)
Definition example_input
    (inference_step_timeout' preload_timeout' post_process_timeout' process_timeout' : option Z)
    : RawInput :=
  {| raw_max_threads := None; raw_queue_size := None; raw_extra_slow_worker := None;
     raw_dreamer_worker_name := None; raw_models_folder_parent := None; raw_horde_url := None;
     raw_max_lora_cache_size := None; raw_disable_terminal_ui := None;
     raw_safety_on_gpu := None; raw_cycle_process_on_model_change := None;
     raw_civitai_api_token := None; raw_unload_models_from_vram_often := None;
     raw_process_timeout := process_timeout';
     raw_post_process_timeout := post_process_timeout'; raw_download_timeout := None;
     raw_preload_timeout := preload_timeout';
     raw_inference_step_timeout := inference_step_timeout';
     raw_minutes_allowed_without_jobs := None; raw_model_stickiness := None;
     raw_high_memory_mode := None; raw_very_high_memory_mode := None;
     raw_high_performance_mode := None; raw_moderate_performance_mode := None;
     raw_very_fast_disk_mode := None; raw_post_process_job_overlap := None;
     raw_capture_kudos_training_data := None; raw_kudos_training_data_file := None;
     raw_exit_on_unhandled_faults := None; raw_purge_loras_on_download := None;
     raw_remove_maintenance_on_init := None; raw_load_large_models := None;
     raw_custom_models := None; raw_limited_console_messages := None; inherited_errors := [] |}.

Definition KeyboardInterrupt : EntryPoints.PyException :=
  {| EntryPoints.mro := ["KeyboardInterrupt"; "BaseException"; "object"] |}.

Definition ValueError : EntryPoints.PyException :=
  {| EntryPoints.mro := ["ValueError"; "Exception"; "BaseException"; "object"] |}.

(** A process whose streams are the console's. *)
Definition console_state : EntryPoints.ProcState :=
  {| EntryPoints.sys_stdout := Some EntryPoints.console_stdout;
     EntryPoints.sys_stderr := Some EntryPoints.console_stderr;
     EntryPoints.caught := [] |}.


(** A settings value with the defaults of the class in the fields it
    declares, and the given values in the fields that decide what the
    validator does. *)
Definition example_settings (max_threads' queue_size' : Z)
    (extra_slow_worker' high_performance_mode' moderate_performance_mode' : bool)
    (process_timeout' : Z) : reGenBridgeData :=
  {| max_threads := max_threads'; queue_size := queue_size';
     extra_slow_worker := extra_slow_worker'; dreamer_worker_name := "worker";
     models_folder_parent := "./models"; horde_url := ""; max_lora_cache_size := 10;
     disable_terminal_ui := true; safety_on_gpu := false;
     cycle_process_on_model_change := false; CIVIT_API_TOKEN := None;
     unload_models_from_vram_often := true; process_timeout := process_timeout';
     post_process_timeout := 60; download_timeout := 1; preload_timeout := 80;
     inference_step_timeout := 15; minutes_allowed_without_jobs := 30;
     horde_model_stickiness := Finite 0; high_memory_mode := true;
     very_high_memory_mode := false; high_performance_mode := high_performance_mode';
     moderate_performance_mode := moderate_performance_mode'; very_fast_disk_mode := false;
     post_process_job_overlap := false; capture_kudos_training_data := false;
     kudos_training_data_file := None; exit_on_unhandled_faults := false;
     purge_loras_on_download := false; remove_maintenance_on_init := false;
     load_large_models := true; custom_models := []; limited_console_messages := false |}.

(** A process with an empty environment, no file and an empty log, in
    which [self] is [s]. *)
Definition fresh_state (s : reGenBridgeData) : PyState :=
  {| self_fields := s; _loaded_from_env_vars := false; _yaml_loader := None;
     environ := ∅; cwd := "/worker"; files := ∅; log := [] |}.

(** *** Assertions on the validator *)

(** [s'] has the fields of [s] that the validator never assigns. *)
Definition same_unassigned_fields (s s' : reGenBridgeData) : Prop :=
  extra_slow_worker s' = extra_slow_worker s
  /\ dreamer_worker_name s' = dreamer_worker_name s
  /\ models_folder_parent s' = models_folder_parent s
  /\ horde_url s' = horde_url s
  /\ max_lora_cache_size s' = max_lora_cache_size s
  /\ disable_terminal_ui s' = disable_terminal_ui s
  /\ safety_on_gpu s' = safety_on_gpu s
  /\ CIVIT_API_TOKEN s' = CIVIT_API_TOKEN s
  /\ unload_models_from_vram_often s' = unload_models_from_vram_often s
  /\ post_process_timeout s' = post_process_timeout s
  /\ download_timeout s' = download_timeout s
  /\ inference_step_timeout s' = inference_step_timeout s
  /\ minutes_allowed_without_jobs s' = minutes_allowed_without_jobs s
  /\ horde_model_stickiness s' = horde_model_stickiness s
  /\ very_fast_disk_mode s' = very_fast_disk_mode s
  /\ post_process_job_overlap s' = post_process_job_overlap s
  /\ capture_kudos_training_data s' = capture_kudos_training_data s
  /\ kudos_training_data_file s' = kudos_training_data_file s
  /\ exit_on_unhandled_faults s' = exit_on_unhandled_faults s
  /\ purge_loras_on_download s' = purge_loras_on_download s
  /\ remove_maintenance_on_init s' = remove_maintenance_on_init s
  /\ load_large_models s' = load_large_models s
  /\ custom_models s' = custom_models s
  /\ limited_console_messages s' = limited_console_messages s.

(** The validator finds nothing to adjust in [s]. *)
Definition settled (s : reGenBridgeData) : Prop :=
  high_performance_mode s = false
  /\ moderate_performance_mode s = false
  /\ extra_slow_worker s = false
  /\ (max_threads s < 2 \/ queue_size s <= 3)
  /\ (very_high_memory_mode s = true -> high_memory_mode s = true)
  /\ (high_memory_mode s = true -> cycle_process_on_model_change s = false).

(** *** More concrete inputs *)

(** A configuration in which only [minutes_allowed_without_jobs] and
    [dreamer_worker_name] may be present. *)
Definition example_named_input (minutes_allowed_without_jobs' : option Z)
    (dreamer_worker_name' : option string) : RawInput :=
  {| raw_max_threads := None; raw_queue_size := None; raw_extra_slow_worker := None;
     raw_dreamer_worker_name := dreamer_worker_name'; raw_models_folder_parent := None;
     raw_horde_url := None; raw_max_lora_cache_size := None; raw_disable_terminal_ui := None;
     raw_safety_on_gpu := None; raw_cycle_process_on_model_change := None;
     raw_civitai_api_token := None; raw_unload_models_from_vram_often := None;
     raw_process_timeout := None; raw_post_process_timeout := None;
     raw_download_timeout := None; raw_preload_timeout := None;
     raw_inference_step_timeout := None;
     raw_minutes_allowed_without_jobs := minutes_allowed_without_jobs';
     raw_model_stickiness := None; raw_high_memory_mode := None;
     raw_very_high_memory_mode := None; raw_high_performance_mode := None;
     raw_moderate_performance_mode := None; raw_very_fast_disk_mode := None;
     raw_post_process_job_overlap := None; raw_capture_kudos_training_data := None;
     raw_kudos_training_data_file := None; raw_exit_on_unhandled_faults := None;
     raw_purge_loras_on_download := None; raw_remove_maintenance_on_init := None;
     raw_load_large_models := None; raw_custom_models := None;
     raw_limited_console_messages := None; inherited_errors := [] |}.

(** A process with the environment [e], no file and an empty log, in
    which [self] is [s]. *)
Definition state_with_environ (e : gmap string string) (s : reGenBridgeData) : PyState :=
  {| self_fields := s; _loaded_from_env_vars := false; _yaml_loader := None;
     environ := e; cwd := "/worker"; files := ∅; log := [] |}.

(** *** Assertions on the environment and the files *)

Definition with_environ (e : gmap string string) (st : PyState) : PyState :=
  {| self_fields := self_fields st; _loaded_from_env_vars := _loaded_from_env_vars st;
     _yaml_loader := _yaml_loader st; environ := e; cwd := cwd st;
     files := files st; log := log st |}.

(** The environment after [load_env_vars], in closed form (see
    [load_env_vars_state]). *)
Definition load_env_vars_environ (self : reGenBridgeData) (e : gmap string string)
    : gmap string string :=
  let e1 :=
    if str_truthy (models_folder_parent self)
       && bool_decide (e !! "AIWORKER_CACHE_HOME" = None)
    then <["AIWORKER_CACHE_HOME" := models_folder_parent self]> e else e in
  let e2 :=
    if str_truthy (horde_url self) && bool_decide (e1 !! "AI_HORDE_URL" = None)
    then <["AI_HORDE_URL" := horde_url self]> e1 else e1 in
  let e3 :=
    match CIVIT_API_TOKEN self with
    | Some token => <["CIVIT_API_TOKEN" := token]> e2
    | None => e2
    end in
  let e4 :=
    if negb (Z.eqb (max_lora_cache_size self) 0)
       && bool_decide (e3 !! "AIWORKER_LORA_CACHE_SIZE" = None)
    then <["AIWORKER_LORA_CACHE_SIZE" := pretty (max_lora_cache_size self * 1024)]> e3
    else e3 in
  if load_large_models self then <["AI_HORDE_MODEL_META_LARGE_MODELS" := "1"]> e4 else e4.

(** The value [load_env_vars] gives to a variable it sets only when the
    variable is absent: [v], if the configuration has it. *)
Definition set_if_absent (old : option string) (v : string) (configured : bool)
    : option string :=
  match old with
  | Some x => Some x
  | None => if configured then Some v else None
  end.

(** The variables [load_env_vars] may set. *)
Definition load_env_vars_keys : list string :=
  ["AIWORKER_CACHE_HOME"; "AI_HORDE_URL"; "CIVIT_API_TOKEN"; "AIWORKER_LORA_CACHE_SIZE";
   "AI_HORDE_MODEL_META_LARGE_MODELS"].

(** *** Assertions on the custom models *)

(** A custom model entry has the three keys the worker needs. *)
Definition complete (model : PyDict) : bool :=
  truthy (dict_get model "name") && truthy (dict_get model "baseline")
  && truthy (dict_get model "filepath").

(** The dictionary [collect_custom_models] builds, in closed form (see
    [collect_custom_models_state]). *)
Fixpoint collected (models : list PyDict) (d : OrderedDict CustomModelEntry)
    : OrderedDict CustomModelEntry :=
  match models with
  | [] => d
  | model :: rest =>
      if complete model then
        collected rest
          (dict_setitem d (dict_get model "name")
             {| cm_name := dict_get model "name";
                cm_baseline := dict_get model "baseline";
                cm_type := "ckpt";
                cm_config_files_path := dict_get model "filepath" |})
      else collected rest d
  end.

(** An item of [custom_models.json]: the three values are there, the
    type is ["ckpt"], and the key is the name. *)
Definition item_complete (item : PyVal * CustomModelEntry) : Prop :=
  truthy (cm_name item.2) = true
  /\ truthy (cm_baseline item.2) = true
  /\ truthy (cm_config_files_path item.2) = true
  /\ cm_type item.2 = "ckpt"
  /\ py_eqb item.1 (cm_name item.2) = true.

(** The file the custom models go to. *)
Definition custom_models_json (st : PyState) : string := cwd st +:+ "/custom_models.json".

(** [HORDELIB_CUSTOM_MODELS] is set and not empty. *)
Definition custom_models_set (st : PyState) : bool :=
  env_truthy (environ st !! "HORDELIB_CUSTOM_MODELS").

(** A custom model entry with the three keys, and one without a file. *)
Definition example_custom_model : PyDict :=
  {[ "name" := PStr "my-model"; "baseline" := PStr "stable_diffusion_xl";
     "filepath" := PStr "/models/my-model.safetensors" ]}.

Definition example_incomplete_model : PyDict :=
  {[ "name" := PStr "no-file"; "baseline" := PStr "stable_diffusion_xl" ]}.

(** The settings of [example_settings 1 1 false true false 300], with
    the given custom models. *)
Definition example_settings_with_models (models : list PyDict) : reGenBridgeData :=
  {| max_threads := 1; queue_size := 1;
     extra_slow_worker := false; dreamer_worker_name := "worker";
     models_folder_parent := "./models"; horde_url := ""; max_lora_cache_size := 10;
     disable_terminal_ui := true; safety_on_gpu := false;
     cycle_process_on_model_change := false; CIVIT_API_TOKEN := None;
     unload_models_from_vram_often := true; process_timeout := 300;
     post_process_timeout := 60; download_timeout := 1; preload_timeout := 80;
     inference_step_timeout := 15; minutes_allowed_without_jobs := 30;
     horde_model_stickiness := Finite 0; high_memory_mode := true;
     very_high_memory_mode := false; high_performance_mode := true;
     moderate_performance_mode := false; very_fast_disk_mode := false;
     post_process_job_overlap := false; capture_kudos_training_data := false;
     kudos_training_data_file := None; exit_on_unhandled_faults := false;
     purge_loras_on_download := false; remove_maintenance_on_init := false;
     load_large_models := true; custom_models := models; limited_console_messages := false |}.

(** What [logger.catch()] reports when [o] reaches it. *)
Definition reported (o : EntryPoints.Outcome) : list EntryPoints.PyException :=
  match o with
  | EntryPoints.Returned => []
  | EntryPoints.Raised e => if EntryPoints.issubclass e "Exception" then [e] else []
  end.

(** [m] leaves the part [part] of the state as it is. *)
Definition keeps_part {A B} (part : PyState -> B) (m : Method A) : Prop :=
  forall st, part (snd (m st)) = part st.

End Assertions.

(** ** Reasoning about methods *)

Module Reasoning.
Import BridgeData Assertions.

(** *** Rules *)

Lemma setattr_guard (c : bool) a s :
  (if c then setattr a s else s) = setattr (guard c a s) s.
Proof. destruct c, a, s; reflexivity. Qed.

Lemma wp_bind {A B} (m : Method A) (k : A -> Method B) Q st :
  wp m (fun x st' => wp (k x) Q st') st -> wp (m ≫= k) Q st.
Proof. unfold wp, mbind, Method_bind. destruct (m st); auto. Qed.

Lemma wp_get_self Q st : Q (self_fields st) st -> wp get_self Q st.
Proof. auto. Qed.

Lemma wp_bind_get_self {A} (k : reGenBridgeData -> Method A) Q st :
  wp (k (self_fields st)) Q st -> wp (get_self ≫= k) Q st.
Proof. auto. Qed.

(** A statement at the top level is a statement under a guard that holds. *)
Lemma wp_top {A} (m : Method unit) (k : unit -> Method A) Q st :
  wp (when true m) (fun _ st' => wp (k tt) Q st') st -> wp (m ≫= k) Q st.
Proof.
  intros H. apply wp_bind. unfold when, wp in *. destruct (m st) as [[] ?]; auto.
Qed.

(** The guard of a block is a value: it distributes over the statements
    of the block. *)
Lemma wp_when_get_self (c : bool) (k : reGenBridgeData -> Method unit) Q st :
  wp (when c (k (self_fields st))) Q st -> wp (when c (get_self ≫= k)) Q st.
Proof. destruct c; auto. Qed.

Lemma wp_when_seq (c : bool) (m : Method unit) (k : unit -> Method unit) Q st :
  wp (when c m) (fun _ st' => wp (when c (k tt)) Q st') st -> wp (when c (m ≫= k)) Q st.
Proof.
  destruct c; cbn; auto. unfold wp, mbind, Method_bind. destruct (m st) as [[] ?]; auto.
Qed.

Lemma wp_when_when (c c' : bool) m Q st :
  wp (when (c && c') m) Q st -> wp (when c (when c' m)) Q st.
Proof. destruct c, c'; auto. Qed.

Lemma wp_when_if (c c' : bool) (m1 m2 : Method unit) Q st :
  wp (when (c && c') m1) (fun _ st' => wp (when (c && negb c') m2) Q st') st ->
  wp (when c (if c' then m1 else m2)) Q st.
Proof.
  destruct c, c'; unfold wp, when, mret, Method_ret; cbn; auto.
  destruct (m1 st) as [[] ?]; auto.
Qed.

Lemma wp_when_ret (c : bool) Q st : Q tt st -> wp (when c (mret tt)) Q st.
Proof. destruct c; auto. Qed.

Lemma wp_when_assign (c : bool) a Q st :
  Q tt (with_self (setattr (guard c a (self_fields st)) (self_fields st)) st) ->
  wp (when c (assign a)) Q st.
Proof. rewrite <- setattr_guard. destruct c; cbn; auto. destruct st; auto. Qed.

Lemma wp_when_logger (c : bool) lvl msg Q st :
  Q tt (with_log (log st ++ if c then [{| level := lvl; message := msg |}] else []) st) ->
  wp (when c (logger lvl msg)) Q st.
Proof. destruct c; cbn; auto. rewrite app_nil_r. destruct st; auto. Qed.

Ltac wp_norm :=
  unfold with_self, with_log;
  cbn [setattr guard self_fields _loaded_from_env_vars _yaml_loader
       environ cwd files log max_threads queue_size extra_slow_worker
       high_performance_mode moderate_performance_mode high_memory_mode
       very_high_memory_mode preload_timeout process_timeout
       cycle_process_on_model_change unload_models_from_vram_often andb negb].

(** One step of the symbolic run of a method built from guarded
    assignments and log calls. *)
Ltac wp_step :=
  lazymatch goal with
  | |- wp (get_self ≫= _) _ _ => apply wp_bind_get_self
  | |- wp get_self _ _ => apply wp_get_self
  | |- wp (when _ (get_self ≫= _)) _ _ => apply wp_when_get_self
  | |- wp (when _ (when _ _)) _ _ => apply wp_when_when
  | |- wp (when _ (if _ then _ else _)) _ _ => apply wp_when_if
  | |- wp (when _ (mret _)) _ _ => apply wp_when_ret
  | |- wp (when _ (assign _)) _ _ => apply wp_when_assign
  | |- wp (when _ (logger _ _)) _ _ => apply wp_when_logger
  | |- wp (when _ (_ ≫= _)) _ _ => apply wp_when_seq
  | |- wp (when _ _ ≫= _) _ _ => apply wp_bind
  | |- wp ((if _ then _ else _) ≫= _) _ _ => apply wp_top
  end;
  wp_norm.

(** Case analysis on the boolean variables the goal mentions. *)
Ltac split_bools :=
  repeat match goal with
    | b : bool |- _ => lazymatch goal with |- context [b] => destruct b end
    end.

(** *** The validator in closed form *)

(** Two settings values with the same fields are equal. *)
Lemma reGenBridgeData_eq (s1 s2 : reGenBridgeData) :
  max_threads s1 = max_threads s2 ->
  queue_size s1 = queue_size s2 ->
  extra_slow_worker s1 = extra_slow_worker s2 ->
  dreamer_worker_name s1 = dreamer_worker_name s2 ->
  models_folder_parent s1 = models_folder_parent s2 ->
  horde_url s1 = horde_url s2 ->
  max_lora_cache_size s1 = max_lora_cache_size s2 ->
  disable_terminal_ui s1 = disable_terminal_ui s2 ->
  safety_on_gpu s1 = safety_on_gpu s2 ->
  cycle_process_on_model_change s1 = cycle_process_on_model_change s2 ->
  CIVIT_API_TOKEN s1 = CIVIT_API_TOKEN s2 ->
  unload_models_from_vram_often s1 = unload_models_from_vram_often s2 ->
  process_timeout s1 = process_timeout s2 ->
  post_process_timeout s1 = post_process_timeout s2 ->
  download_timeout s1 = download_timeout s2 ->
  preload_timeout s1 = preload_timeout s2 ->
  inference_step_timeout s1 = inference_step_timeout s2 ->
  minutes_allowed_without_jobs s1 = minutes_allowed_without_jobs s2 ->
  horde_model_stickiness s1 = horde_model_stickiness s2 ->
  high_memory_mode s1 = high_memory_mode s2 ->
  very_high_memory_mode s1 = very_high_memory_mode s2 ->
  high_performance_mode s1 = high_performance_mode s2 ->
  moderate_performance_mode s1 = moderate_performance_mode s2 ->
  very_fast_disk_mode s1 = very_fast_disk_mode s2 ->
  post_process_job_overlap s1 = post_process_job_overlap s2 ->
  capture_kudos_training_data s1 = capture_kudos_training_data s2 ->
  kudos_training_data_file s1 = kudos_training_data_file s2 ->
  exit_on_unhandled_faults s1 = exit_on_unhandled_faults s2 ->
  purge_loras_on_download s1 = purge_loras_on_download s2 ->
  remove_maintenance_on_init s1 = remove_maintenance_on_init s2 ->
  load_large_models s1 = load_large_models s2 ->
  custom_models s1 = custom_models s2 ->
  limited_console_messages s1 = limited_console_messages s2 ->
  s1 = s2.
Proof. destruct s1, s2; cbn; intros; subst; reflexivity. Qed.

Ltac fields_norm :=
  cbn [setattr guard max_threads queue_size extra_slow_worker dreamer_worker_name
       models_folder_parent horde_url max_lora_cache_size disable_terminal_ui safety_on_gpu
       cycle_process_on_model_change CIVIT_API_TOKEN unload_models_from_vram_often
       process_timeout post_process_timeout download_timeout preload_timeout
       inference_step_timeout minutes_allowed_without_jobs horde_model_stickiness
       high_memory_mode very_high_memory_mode high_performance_mode moderate_performance_mode
       very_fast_disk_mode post_process_job_overlap capture_kudos_training_data
       kudos_training_data_file exit_on_unhandled_faults purge_loras_on_download
       remove_maintenance_on_init load_large_models custom_models limited_console_messages].


Lemma validate_performance_modes_wp st :
  wp validate_performance_modes
    (fun r st' =>
       r = self_fields st'
       /\ st' = with_log (log st') (with_self (resolved (self_fields st)) st))
    st.
Proof.
  destruct st as [self l y e c f lg].
  unfold validate_performance_modes.
  repeat wp_step.
  split; [reflexivity|].
  wp_norm. f_equal.
  apply reGenBridgeData_eq; unfold resolved; fields_norm; try reflexivity;
    destruct self; fields_norm; split_bools; cbn; repeat case_bool_decide;
    try reflexivity; lia.
Qed.

Lemma validate_performance_modes_resolved st :
  fst (validate_performance_modes st) = resolved (self_fields st)
  /\ self_fields (snd (validate_performance_modes st)) = resolved (self_fields st).
Proof.
  destruct (validate_performance_modes_wp st) as [Hr Hst].
  rewrite Hr. rewrite Hst. auto.
Qed.

(** The validator touches the fields and the log only. *)
Lemma validate_performance_modes_frame st :
  let st' := snd (validate_performance_modes st) in
  environ st' = environ st /\ files st' = files st /\ cwd st' = cwd st
  /\ _yaml_loader st' = _yaml_loader st
  /\ _loaded_from_env_vars st' = _loaded_from_env_vars st.
Proof.
  destruct (validate_performance_modes_wp st) as [_ Hst].
  cbn zeta. rewrite Hst. auto.
Qed.

Lemma resolved_idempotent s : resolved (resolved s) = resolved s.
Proof.
  apply reGenBridgeData_eq; unfold resolved; fields_norm; try reflexivity;
    destruct s; fields_norm; split_bools; cbn;
    repeat (case_bool_decide; cbn in * ); try reflexivity; lia.
Qed.

End Reasoning.

(** ** Properties of the settings validator *)

Module Validator.
Import BridgeData Assertions Reasoning.

Lemma max_threads_not_raised st :
  max_threads (fst (validate_performance_modes st)) >= 2 ->
  max_threads (self_fields st) >= 2.
Proof.
  destruct (validate_performance_modes_resolved st) as [-> _].
  unfold resolved; fields_norm.
  destruct (extra_slow_worker (self_fields st)); cbn;
    repeat (case_bool_decide; cbn in * ); lia.
Qed.

(** C1, as the validator has it: when [max_threads] is at least 2 (in
    the configuration given to the validator, or in the one it returns)
    the resulting [queue_size] is at most 3; an input with
    [max_threads = 2], [queue_size = 3] and [extra_slow_worker] false
    keeps [queue_size = 3], and with [extra_slow_worker] true its
    [queue_size] becomes 0. *)
Theorem C1_queue_size_clamped st :
  max_threads (self_fields st) >= 2
  \/ max_threads (fst (validate_performance_modes st)) >= 2 ->
  queue_size (fst (validate_performance_modes st)) <= 3
  /\ (max_threads (self_fields st) = 2 -> queue_size (self_fields st) = 3 ->
      queue_size (fst (validate_performance_modes st))
      = if extra_slow_worker (self_fields st) then 0 else 3).
Proof.
  intros H.
  assert (Hmt : max_threads (self_fields st) >= 2)
    by (destruct H; [assumption | now apply max_threads_not_raised]).
  destruct (validate_performance_modes_resolved st) as [-> _].
  unfold resolved; fields_norm.
  split; [| intros ? ?];
    destruct (extra_slow_worker (self_fields st)); cbn;
    repeat (case_bool_decide; cbn in * ); try reflexivity; lia.
Qed.

Lemma C1_queue_size_clamped_witness :
  let r := fst (validate_performance_modes
                  (fresh_state (example_settings 2 3 false true false 300))) in
  queue_size r <= 3 /\ queue_size r = 3.
Proof.
  destruct (C1_queue_size_clamped (fresh_state (example_settings 2 3 false true false 300)))
    as [H1 H2]; [left; cbn; lia |].
  split; [exact H1 | exact (H2 eq_refl eq_refl)].
Defined.

(** C1 as stated fails: with [extra_slow_worker] set, the input
    [max_threads = 2], [queue_size = 3] does not keep its [queue_size]. *)
Lemma C1_boundary_not_kept_when_extra_slow :
  max_threads (example_settings 2 3 true true false 300) = 2
  /\ queue_size (example_settings 2 3 true true false 300) = 3
  /\ queue_size
       (fst (validate_performance_modes (fresh_state (example_settings 2 3 true true false 300))))
     = 0.
Proof. vm_compute. auto. Qed.

(** C9: validating a validated configuration changes no field. *)
Theorem C9_validate_performance_modes_idempotent st :
  fst (validate_performance_modes (snd (validate_performance_modes st)))
  = fst (validate_performance_modes st)
  /\ self_fields (snd (validate_performance_modes (snd (validate_performance_modes st))))
     = self_fields (snd (validate_performance_modes st)).
Proof.
  destruct (validate_performance_modes_resolved (snd (validate_performance_modes st)))
    as [-> ->].
  destruct (validate_performance_modes_resolved st) as [-> ->].
  split; apply resolved_idempotent.
Qed.

(** Without an assumption on the range of the inherited fields, an extra
    slow worker ends with [queue_size <= 0] and [max_threads <= 1]. *)
Lemma extra_slow_worker_bounds st :
  extra_slow_worker (self_fields st) = true ->
  queue_size (fst (validate_performance_modes st)) <= 0
  /\ max_threads (fst (validate_performance_modes st)) <= 1.
Proof.
  intros H. destruct (validate_performance_modes_resolved st) as [-> _].
  unfold resolved; fields_norm. rewrite H. cbn.
  repeat (case_bool_decide; cbn in * ); lia.
Qed.

(** C10: with [extra_slow_worker] set, after validation the four mode
    flags are off, [queue_size = 0], [max_threads = 1] and
    [preload_timeout >= 120]. The inherited fields [queue_size] and
    [max_threads] are taken in the range their declarations in the SDK
    give them ([queue_size >= 0], [max_threads >= 1]). *)
Theorem C10_extra_slow_worker st :
  extra_slow_worker (self_fields st) = true ->
  queue_size (self_fields st) >= 0 ->
  max_threads (self_fields st) >= 1 ->
  high_performance_mode (fst (validate_performance_modes st)) = false
  /\ moderate_performance_mode (fst (validate_performance_modes st)) = false
  /\ high_memory_mode (fst (validate_performance_modes st)) = false
  /\ very_high_memory_mode (fst (validate_performance_modes st)) = false
  /\ queue_size (fst (validate_performance_modes st)) = 0
  /\ max_threads (fst (validate_performance_modes st)) = 1
  /\ preload_timeout (fst (validate_performance_modes st)) >= 120.
Proof.
  intros H Hq Hmt. destruct (validate_performance_modes_resolved st) as [-> _].
  unfold resolved; fields_norm. rewrite H. cbn.
  rewrite !andb_false_r.
  repeat split; repeat (case_bool_decide; cbn in * ); try reflexivity; lia.
Qed.

Lemma C10_extra_slow_worker_witness :
  let r := fst (validate_performance_modes
                  (fresh_state (example_settings 4 2 true true false 300))) in
  high_performance_mode r = false /\ moderate_performance_mode r = false
  /\ high_memory_mode r = false /\ very_high_memory_mode r = false
  /\ queue_size r = 0 /\ max_threads r = 1 /\ preload_timeout r >= 120.
Proof.
  apply (C10_extra_slow_worker (fresh_state (example_settings 4 2 true true false 300)));
    cbn; [reflexivity | lia | lia].
Defined.

(** What the validator logs when [high_performance_mode] is set. *)
Lemma high_performance_mode_logged st :
  high_performance_mode (self_fields st) = true ->
  exists l,
    log (snd (validate_performance_modes st)) = (log st ++ l)%list
    /\ {| level := if bool_decide (process_timeout (self_fields st) = 300)
                   then DEBUG else WARNING;
          message :=
            "High performance mode is enabled, so the process_timeout value has "
            +:+ "been set to 1/3 of the default value. The new value is "
            +:+ pretty (process_timeout (self_fields st)) +:+ "." |} ∈ l.
Proof.
  intros H. destruct st as [self l y e c f lg]. cbn in H.
  change (wp validate_performance_modes
            (fun _ st' =>
               exists l', log st' = (lg ++ l')%list
                 /\ {| level := if bool_decide (process_timeout self = 300)
                                then DEBUG else WARNING;
                       message :=
                         "High performance mode is enabled, so the process_timeout value has "
                         +:+ "been set to 1/3 of the default value. The new value is "
                         +:+ pretty (process_timeout self) +:+ "." |} ∈ l')
            {| self_fields := self; _loaded_from_env_vars := l; _yaml_loader := y;
               environ := e; cwd := c; files := f; log := lg |}).
  unfold validate_performance_modes.
  repeat wp_step.
  rewrite H. unfold process_timeout_field. cbn [Pydantic.default Pydantic.int_field andb].
  rewrite <- !app_assoc. eexists. split; [reflexivity |].
  destruct (bool_decide (process_timeout self = 300)); cbn [negb app];
    rewrite !elem_of_app, !elem_of_cons; auto.
Qed.

(** What the validator logs when only [moderate_performance_mode] is set. *)
Lemma moderate_performance_mode_logged st :
  high_performance_mode (self_fields st) = false ->
  moderate_performance_mode (self_fields st) = true ->
  exists l,
    log (snd (validate_performance_modes st)) = (log st ++ l)%list
    /\ {| level := if bool_decide (process_timeout (self_fields st) = 300)
                   then DEBUG else WARNING;
          message :=
            "Moderate performance mode is enabled, so the process_timeout value has "
            +:+ "been set to 1/2 of the default value. The new value is "
            +:+ pretty (process_timeout (self_fields st)) +:+ "." |} ∈ l.
Proof.
  intros H H'. destruct st as [self l y e c f lg]. cbn in H, H'.
  change (wp validate_performance_modes
            (fun _ st' =>
               exists l', log st' = (lg ++ l')%list
                 /\ {| level := if bool_decide (process_timeout self = 300)
                                then DEBUG else WARNING;
                       message :=
                         "Moderate performance mode is enabled, so the process_timeout value has "
                         +:+ "been set to 1/2 of the default value. The new value is "
                         +:+ pretty (process_timeout self) +:+ "." |} ∈ l')
            {| self_fields := self; _loaded_from_env_vars := l; _yaml_loader := y;
               environ := e; cwd := c; files := f; log := lg |}).
  unfold validate_performance_modes.
  repeat wp_step.
  rewrite H, H'. unfold process_timeout_field. cbn [Pydantic.default Pydantic.int_field andb negb].
  rewrite <- !app_assoc. eexists. split; [reflexivity |].
  destruct (bool_decide (process_timeout self = 300)); cbn [negb app];
    rewrite !elem_of_app, !elem_of_cons; auto 10.
Qed.

(** C8, as the validator has it: with [high_performance_mode] set and
    [extra_slow_worker] off [process_timeout] becomes 100, with
    [moderate_performance_mode] set and [high_performance_mode] off it
    becomes 150, whatever value the user supplied; the replacement is
    logged, as a warning when the supplied value is not the default 300
    and as a debug message when it is. *)
Theorem C8_process_timeout_replaced st :
  (high_performance_mode (self_fields st) = true ->
   extra_slow_worker (self_fields st) = false ->
   process_timeout (fst (validate_performance_modes st)) = 100
   /\ exists l,
        log (snd (validate_performance_modes st)) = (log st ++ l)%list
        /\ {| level := if bool_decide (process_timeout (self_fields st) = 300)
                       then DEBUG else WARNING;
              message :=
                "High performance mode is enabled, so the process_timeout value has "
                +:+ "been set to 1/3 of the default value. The new value is "
                +:+ pretty (process_timeout (self_fields st)) +:+ "." |} ∈ l)
  /\ (moderate_performance_mode (self_fields st) = true ->
      high_performance_mode (self_fields st) = false ->
      process_timeout (fst (validate_performance_modes st)) = 150
      /\ exists l,
           log (snd (validate_performance_modes st)) = (log st ++ l)%list
           /\ {| level := if bool_decide (process_timeout (self_fields st) = 300)
                          then DEBUG else WARNING;
                 message :=
                   "Moderate performance mode is enabled, so the process_timeout value has "
                   +:+ "been set to 1/2 of the default value. The new value is "
                   +:+ pretty (process_timeout (self_fields st)) +:+ "." |} ∈ l).
Proof.
  split.
  - intros H _. split; [| now apply high_performance_mode_logged].
    destruct (validate_performance_modes_resolved st) as [-> _].
    unfold resolved; fields_norm. now rewrite H.
  - intros H' H. split; [| now apply moderate_performance_mode_logged].
    destruct (validate_performance_modes_resolved st) as [-> _].
    unfold resolved; fields_norm. now rewrite H, H'.
Qed.

Lemma C8_process_timeout_replaced_witness :
  process_timeout
    (fst (validate_performance_modes (fresh_state (example_settings 1 1 false true false 500))))
  = 100
  /\ process_timeout
       (fst (validate_performance_modes (fresh_state (example_settings 1 1 false false true 500))))
     = 150.
Proof.
  split.
  - apply (proj1 (C8_process_timeout_replaced
                    (fresh_state (example_settings 1 1 false true false 500))));
      reflexivity.
  - apply (proj2 (C8_process_timeout_replaced
                    (fresh_state (example_settings 1 1 false false true 500))));
      reflexivity.
Defined.

(** C8 as stated fails in its last part: the supplied value is not
    discarded silently, the validator logs a warning. *)
Lemma C8_replacement_is_logged :
  high_performance_mode (example_settings 1 1 false true false 500) = true
  /\ extra_slow_worker (example_settings 1 1 false true false 500) = false
  /\ log (fresh_state (example_settings 1 1 false true false 500)) = []
  /\ process_timeout
       (fst (validate_performance_modes (fresh_state (example_settings 1 1 false true false 500))))
     = 100
  /\ {| level := WARNING;
        message :=
          "High performance mode is enabled, so the process_timeout value has been set to 1/3 of the default value. The new value is 500." |}
     ∈ log (snd (validate_performance_modes
                   (fresh_state (example_settings 1 1 false true false 500)))).
Proof.
  repeat split. vm_compute. apply list_elem_of_here.
Qed.

End Validator.

(** ** The operations on a validated settings value *)

Module Operations.
Import BridgeData Assertions.

Create HintDb keeps discriminated.

Lemma keeps_ret {A} (x : A) : keeps_fields (mret x : Method A).
Proof. intros st. reflexivity. Qed.

Lemma keeps_bind {A B} (m : Method A) (k : A -> Method B) :
  keeps_fields m -> (forall x, keeps_fields (k x)) -> keeps_fields (m ≫= k).
Proof.
  intros Hm Hk st. unfold mbind, Method_bind.
  specialize (Hm st). destruct (m st) as [x st1]. cbn in Hm.
  rewrite (Hk x st1). exact Hm.
Qed.

Lemma keeps_when (c : bool) (m : Method unit) : keeps_fields m -> keeps_fields (when c m).
Proof. destruct c; [trivial | intros _; apply keeps_ret]. Qed.

Lemma keeps_get_self : keeps_fields get_self.
Proof. intros st. reflexivity. Qed.

Lemma keeps_logger lvl msg : keeps_fields (logger lvl msg).
Proof. intros st. reflexivity. Qed.

Lemma keeps_getenv k : keeps_fields (getenv k).
Proof. intros st. reflexivity. Qed.

Lemma keeps_setenv k v : keeps_fields (setenv k v).
Proof. intros st. reflexivity. Qed.

Lemma keeps_getcwd : keeps_fields getcwd.
Proof. intros st. reflexivity. Qed.

Lemma keeps_path_exists p : keeps_fields (path_exists p).
Proof. intros st. reflexivity. Qed.

Lemma keeps_remove p : keeps_fields (remove p).
Proof. intros st. reflexivity. Qed.

Lemma keeps_write_file p content : keeps_fields (write_file p content).
Proof. intros st. reflexivity. Qed.

Lemma keeps_get_yaml_loader : keeps_fields get_yaml_loader.
Proof. intros st. reflexivity. Qed.

Lemma keeps_set_yaml_loader v : keeps_fields (set_yaml_loader v).
Proof. intros st. reflexivity. Qed.

#[export] Hint Resolve keeps_ret keeps_when keeps_get_self keeps_logger keeps_getenv
  keeps_setenv keeps_getcwd keeps_path_exists keeps_remove keeps_write_file
  keeps_get_yaml_loader keeps_set_yaml_loader : keeps.

(** Goes through a method statement by statement. *)
Ltac keeps :=
  repeat first
    [ apply keeps_bind; [| intros ?]
    | apply keeps_when
    | match goal with
      | |- keeps_fields (if ?c then _ else _) => destruct c
      | |- keeps_fields (match ?x with _ => _ end) => destruct x
      end
    | solve [auto with keeps] ].

Lemma keeps_collect_custom_models repr models custom_models_dict :
  keeps_fields (collect_custom_models repr models custom_models_dict).
Proof.
  revert custom_models_dict.
  induction models as [| model rest IH]; intros custom_models_dict; cbn [collect_custom_models].
  - apply keeps_ret.
  - keeps; apply IH.
Qed.

#[export] Hint Resolve keeps_collect_custom_models : keeps.

Lemma keeps_load_env_vars : keeps_fields load_env_vars.
Proof. unfold load_env_vars. keeps. Qed.

Lemma keeps_prepare_custom_models repr : keeps_fields (prepare_custom_models repr).
Proof. unfold prepare_custom_models. keeps. Qed.

Lemma keeps_load_custom_models : keeps_fields load_custom_models.
Proof. unfold load_custom_models. keeps. Qed.

Lemma keeps_save file_path : keeps_fields (save file_path).
Proof. unfold save. keeps. Qed.

(** [save] does write to the instance, but to a private attribute, which
    is no field of the model. *)
Example save_sets_yaml_loader :
  _yaml_loader (exec (save "bridgeData.yaml") (fresh_state (example_settings 1 1 false true false 300)))
  = Some YAML_loader.
Proof. reflexivity. Qed.

(** [save] writes the fields as they are. *)
Lemma save_dumps_fields file_path st :
  files (exec (save file_path) st) !! file_path = Some (YamlDump (self_fields st)).
Proof.
  unfold save, exec, mbind, Method_bind, get_yaml_loader, when, set_yaml_loader, get_self,
    write_file, mret, Method_ret.
  case_bool_decide; cbn; apply lookup_insert_eq.
Qed.

Lemma keeps_part_ret {A B} (part : PyState -> B) (x : A) :
  keeps_part part (mret x : Method A).
Proof. intros st. reflexivity. Qed.

Lemma keeps_part_bind {A B C} (part : PyState -> C) (m : Method A) (k : A -> Method B) :
  keeps_part part m -> (forall x, keeps_part part (k x)) -> keeps_part part (m ≫= k).
Proof.
  intros Hm Hk st. unfold mbind, Method_bind.
  specialize (Hm st). destruct (m st) as [x st1]. cbn in Hm.
  rewrite (Hk x st1). exact Hm.
Qed.

Lemma keeps_part_when {B} (part : PyState -> B) (c : bool) (m : Method unit) :
  keeps_part part m -> keeps_part part (when c m).
Proof. destruct c; [trivial | intros _; apply keeps_part_ret]. Qed.

(** Goes through a method statement by statement; a primitive keeps a
    part it does not write by computation. *)
Ltac keeps_part :=
  repeat first
    [ apply keeps_part_bind; [| intros ?]
    | apply keeps_part_when
    | match goal with
      | |- keeps_part _ (if ?c then _ else _) => destruct c
      | |- keeps_part _ (match ?x with _ => _ end) => destruct x
      end
    | solve [intros ?; reflexivity] ].

Lemma keeps_part_collect_custom_models {B} (part : PyState -> B) repr models
    custom_models_dict :
  (forall lvl msg, keeps_part part (logger lvl msg)) ->
  keeps_part part (collect_custom_models repr models custom_models_dict).
Proof.
  intros Hlog. revert custom_models_dict.
  induction models as [| model rest IH]; intros custom_models_dict; cbn [collect_custom_models].
  - apply keeps_part_ret.
  - repeat first
      [ apply IH
      | apply Hlog
      | apply keeps_part_bind; [| intros ?]
      | match goal with
        | |- keeps_part _ (if ?c then _ else _) => destruct c
        end ].
Qed.

Lemma save_yaml_loader file_path st :
  _yaml_loader (exec (save file_path) st) = Some (default YAML_loader (_yaml_loader st)).
Proof.
  unfold save, exec, mbind, Method_bind, get_yaml_loader, when, set_yaml_loader, get_self,
    write_file, mret, Method_ret.
  destruct st as [? ? [[] |] ? ? ? ?]; cbn [_yaml_loader].
  - rewrite bool_decide_eq_false_2 by discriminate. reflexivity.
  - rewrite bool_decide_eq_true_2 by reflexivity. reflexivity.
Qed.

(** C5, as the operations have it: [load_env_vars],
    [prepare_custom_models] and [save] leave every field of the settings
    as it was, in any state of the environment and of the files. Of the
    private attributes, [save] sets [_yaml_loader] when it is [None];
    nothing else of the object changes. Beside that attribute and the
    log, the three write to the environment and to the files only
    ([load_env_vars] to no file, [save] to no variable). *)
Theorem C5_operations_keep_fields (repr : PyDict -> string) (file_path : string)
    (st : PyState) :
  (self_fields (exec load_env_vars st) = self_fields st
   /\ self_fields (exec (prepare_custom_models repr) st) = self_fields st
   /\ self_fields (exec (save file_path) st) = self_fields st)
  /\ (_yaml_loader (exec load_env_vars st) = _yaml_loader st
      /\ _yaml_loader (exec (prepare_custom_models repr) st) = _yaml_loader st
      /\ _yaml_loader (exec (save file_path) st)
         = Some (default YAML_loader (_yaml_loader st)))
  /\ (_loaded_from_env_vars (exec load_env_vars st) = _loaded_from_env_vars st
      /\ _loaded_from_env_vars (exec (prepare_custom_models repr) st)
         = _loaded_from_env_vars st
      /\ _loaded_from_env_vars (exec (save file_path) st) = _loaded_from_env_vars st)
  /\ (cwd (exec load_env_vars st) = cwd st
      /\ cwd (exec (prepare_custom_models repr) st) = cwd st
      /\ cwd (exec (save file_path) st) = cwd st)
  /\ files (exec load_env_vars st) = files st
  /\ environ (exec (save file_path) st) = environ st.
Proof.
  assert (Hloader : forall lvl msg, keeps_part _yaml_loader (logger lvl msg))
    by (intros ? ? ?; reflexivity).
  assert (Hloaded : forall lvl msg, keeps_part _loaded_from_env_vars (logger lvl msg))
    by (intros ? ? ?; reflexivity).
  assert (Hcwd : forall lvl msg, keeps_part cwd (logger lvl msg))
    by (intros ? ? ?; reflexivity).
  unfold exec. repeat split.
  - apply keeps_load_env_vars.
  - apply keeps_prepare_custom_models.
  - apply keeps_save.
  - revert st. change (keeps_part _yaml_loader load_env_vars).
    unfold load_env_vars. keeps_part.
  - revert st. change (keeps_part _yaml_loader (prepare_custom_models repr)).
    unfold prepare_custom_models. keeps_part.
    all: try (apply keeps_part_collect_custom_models; assumption); keeps_part.
  - apply save_yaml_loader.
  - revert st. change (keeps_part _loaded_from_env_vars load_env_vars).
    unfold load_env_vars. keeps_part.
  - revert st. change (keeps_part _loaded_from_env_vars (prepare_custom_models repr)).
    unfold prepare_custom_models. keeps_part.
    all: try (apply keeps_part_collect_custom_models; assumption); keeps_part.
  - revert st. change (keeps_part _loaded_from_env_vars (save file_path)).
    unfold save. keeps_part.
  - revert st. change (keeps_part cwd load_env_vars).
    unfold load_env_vars. keeps_part.
  - revert st. change (keeps_part cwd (prepare_custom_models repr)).
    unfold prepare_custom_models. keeps_part.
    all: try (apply keeps_part_collect_custom_models; assumption); keeps_part.
  - revert st. change (keeps_part cwd (save file_path)).
    unfold save. keeps_part.
  - revert st. change (keeps_part files load_env_vars).
    unfold load_env_vars. keeps_part.
  - revert st. change (keeps_part environ (save file_path)).
    unfold save. keeps_part.
Qed.

(** C5 as stated fails: the settings object is not immutable under
    [save], which sets its private attribute [_yaml_loader], and the
    operations do more than write to the environment and the files:
    [prepare_custom_models] logs a warning for an incomplete entry. *)
Lemma C5_save_sets_private_attribute :
  _yaml_loader (fresh_state (example_settings_with_models [example_incomplete_model])) = None
  /\ _yaml_loader
       (exec (save "bridgeData.yaml")
          (fresh_state (example_settings_with_models [example_incomplete_model])))
     = Some YAML_loader
  /\ log (fresh_state (example_settings_with_models [example_incomplete_model])) = []
  /\ log (exec (prepare_custom_models (fun _ => "{...}"))
            (fresh_state (example_settings_with_models [example_incomplete_model])))
     = [{| level := WARNING;
           message :=
             "Model filepath not specified for custom model entry {...}. Skipping" |}].
Proof. split; [| split; [| split]]; reflexivity. Qed.

End Operations.

(** ** Properties of the construction *)

Module Construction.
Import BridgeData Assertions Reasoning.

Section Facts.

Variable TOTAL_LORA_DOWNLOAD_TIMEOUT : Z.
Variables max_threads_field queue_size_field max_lora_cache_size_field : Pydantic.IntField.
Variable extra_slow_worker_default : bool.
Variables dreamer_worker_name_default models_folder_parent_default horde_url_default : string.

Local Abbreviation construct :=
  (model_validate TOTAL_LORA_DOWNLOAD_TIMEOUT max_threads_field queue_size_field
     max_lora_cache_size_field extra_slow_worker_default dreamer_worker_name_default
     models_folder_parent_default horde_url_default).
Local Abbreviation errors :=
  (field_errors TOTAL_LORA_DOWNLOAD_TIMEOUT max_threads_field queue_size_field
     max_lora_cache_size_field).
Local Abbreviation fields :=
  (validated_fields TOTAL_LORA_DOWNLOAD_TIMEOUT max_threads_field queue_size_field
     max_lora_cache_size_field extra_slow_worker_default models_folder_parent_default
     horde_url_default).
Local Abbreviation other_errors :=
  (other_field_errors max_threads_field queue_size_field max_lora_cache_size_field
     TOTAL_LORA_DOWNLOAD_TIMEOUT).

(** With an error in a field, the construction raises all the errors. *)
Lemma model_validate_raises raw st :
  errors raw <> [] -> fst (construct raw st) = inl (errors raw).
Proof.
  intros H. unfold model_validate, mbind, Method_bind.
  destruct (match raw_dreamer_worker_name raw with
            | Some value => validate_dreamer_worker_name value
            | None => mret dreamer_worker_name_default
            end st) as [name st1].
  rewrite bool_decide_eq_false_2 by assumption. reflexivity.
Qed.

(** Without one, it returns the validated fields as the validator
    resolves them. *)
Lemma model_validate_returns raw st :
  errors raw = [] ->
  exists name, fst (construct raw st) = inr (resolved (fields raw name)).
Proof.
  intros H. unfold model_validate, mbind, Method_bind.
  destruct (match raw_dreamer_worker_name raw with
            | Some value => validate_dreamer_worker_name value
            | None => mret dreamer_worker_name_default
            end st) as [name st1].
  exists name. rewrite bool_decide_eq_true_2 by assumption.
  unfold set_instance.
  match goal with
  | |- context [validate_performance_modes ?st2] =>
      pose proof (proj1 (validate_performance_modes_resolved st2)) as Hr;
      destruct (validate_performance_modes st2) as [self st3]
  end.
  cbn in Hr |- *. now rewrite Hr.
Qed.

Lemma validate_int_error f loc v :
  Pydantic.int_ok f v = false -> (Pydantic.validate_int f loc (Some v)).1 = [loc].
Proof. intros H. unfold Pydantic.validate_int, Pydantic.validate_with. now rewrite H. Qed.

Lemma validate_int_no_error f loc raw :
  supplied raw (fun v => Pydantic.int_ok f v = true) ->
  (Pydantic.validate_int f loc raw).1 = [].
Proof.
  intros H. unfold Pydantic.validate_int, Pydantic.validate_with.
  destruct raw as [v |]; [| reflexivity]. now rewrite (H v eq_refl).
Qed.

Lemma timeouts_in_bounds_errors raw :
  timeouts_in_bounds raw -> errors raw = other_errors raw.
Proof.
  intros (Hstep & Hpre & Hpost). unfold field_errors, other_field_errors.
  rewrite (validate_int_no_error process_timeout_field), (validate_int_no_error
    post_process_timeout_field), (validate_int_no_error preload_timeout_field),
    (validate_int_no_error inference_step_timeout_field).
  - reflexivity.
  - intros v Hv. specialize (Hstep v Hv). cbn in Hstep. unfold Pydantic.int_ok. cbn.
    repeat case_bool_decide; try reflexivity; lia.
  - intros v Hv. specialize (Hpre v Hv). cbn in Hpre. unfold Pydantic.int_ok. cbn.
    repeat case_bool_decide; try reflexivity; lia.
  - intros v Hv. specialize (Hpost v Hv). cbn in Hpost. unfold Pydantic.int_ok. cbn.
    repeat case_bool_decide; try reflexivity; lia.
  - intros v _. reflexivity.
Qed.

(** The timeouts of a value the construction returns. *)
Lemma resolved_timeouts raw name :
  errors raw = [] ->
  15 <= inference_step_timeout (resolved (fields raw name)) <= 30
  /\ 15 <= preload_timeout (resolved (fields raw name))
  /\ 15 <= post_process_timeout (resolved (fields raw name)).
Proof.
  intros H. unfold field_errors in H.
  repeat match type of H with
         | (_ ++ _)%list = [] => apply app_eq_nil in H; destruct H as [? H]
         end.
  unfold resolved; fields_norm. unfold validated_fields; fields_norm.
  repeat match goal with
         | H0 : (Pydantic.validate_int ?f ?loc ?r).1 = [] |- _ =>
             unfold Pydantic.validate_int, Pydantic.validate_with, Pydantic.int_ok in H0;
             cbn in H0
         end.
  unfold Pydantic.validate_int, Pydantic.validate_with, Pydantic.int_ok. cbn.
  destruct (raw_inference_step_timeout raw), (raw_preload_timeout raw),
    (raw_post_process_timeout raw);
    cbn in *; repeat (case_bool_decide; cbn in * ); try discriminate;
    destruct (Pydantic.validate_plain extra_slow_worker_default (raw_extra_slow_worker raw));
    cbn; repeat (case_bool_decide; cbn in * ); lia.
Qed.

(** C6: the settings have the four timeout fields; a supplied
    [inference_step_timeout] below 15 or above 30, [preload_timeout]
    below 15 or [post_process_timeout] below 15 makes the construction
    raise a validation error that names the field; timeouts within the
    bounds add no error, so that the construction raises exactly the
    errors of the other fields and, when there is none, returns settings
    whose timeouts are within the bounds. *)
Theorem C6_timeout_bounds raw st :
  (forall v, raw_inference_step_timeout raw = Some v -> v < 15 \/ v > 30 ->
     exists errs, fst (construct raw st) = inl errs /\ "inference_step_timeout" ∈ errs)
  /\ (forall v, raw_preload_timeout raw = Some v -> v < 15 ->
        exists errs, fst (construct raw st) = inl errs /\ "preload_timeout" ∈ errs)
  /\ (forall v, raw_post_process_timeout raw = Some v -> v < 15 ->
        exists errs, fst (construct raw st) = inl errs /\ "post_process_timeout" ∈ errs)
  /\ (timeouts_in_bounds raw ->
      (forall errs, fst (construct raw st) = inl errs -> errs = other_errors raw)
      /\ (other_errors raw = [] ->
          exists cfg,
            fst (construct raw st) = inr cfg
            /\ 15 <= inference_step_timeout cfg <= 30
            /\ 15 <= preload_timeout cfg
            /\ 15 <= post_process_timeout cfg)).
Proof.
  assert (Hin : forall loc, loc ∈ errors raw ->
            exists errs, fst (construct raw st) = inl errs /\ loc ∈ errs).
  { intros loc Hloc. exists (errors raw). split; [| assumption].
    apply model_validate_raises. intros Hnil. rewrite Hnil in Hloc.
    now apply not_elem_of_nil in Hloc. }
  repeat split.
  - intros v Hv Hbad. apply Hin. unfold field_errors. rewrite Hv.
    rewrite (validate_int_error inference_step_timeout_field).
    + rewrite !elem_of_app, !elem_of_cons. auto 20.
    + unfold Pydantic.int_ok. cbn. repeat case_bool_decide; try reflexivity; lia.
  - intros v Hv Hbad. apply Hin. unfold field_errors. rewrite Hv.
    rewrite (validate_int_error preload_timeout_field).
    + rewrite !elem_of_app, !elem_of_cons. auto 20.
    + unfold Pydantic.int_ok. cbn. repeat case_bool_decide; try reflexivity; lia.
  - intros v Hv Hbad. apply Hin. unfold field_errors. rewrite Hv.
    rewrite (validate_int_error post_process_timeout_field).
    + rewrite !elem_of_app, !elem_of_cons. auto 20.
    + unfold Pydantic.int_ok. cbn. repeat case_bool_decide; try reflexivity; lia.
  - intros errs Herrs. rewrite <- (timeouts_in_bounds_errors raw) by assumption.
    destruct (decide (errors raw = [])) as [Hnil | Hne].
    + destruct (model_validate_returns raw st Hnil) as [name Hname]. congruence.
    + rewrite (model_validate_raises raw st Hne) in Herrs. congruence.
  - intros Hnil. rewrite <- (timeouts_in_bounds_errors raw) in Hnil by assumption.
    destruct (model_validate_returns raw st Hnil) as [name Hname].
    exists (resolved (fields raw name)).
    destruct (resolved_timeouts raw name Hnil) as (? & ? & ?).
    repeat split; try assumption; try lia.
Qed.

(** C7: the settings have the boolean field [exit_on_unhandled_faults];
    a configuration without the key gets [False], one with the key gets
    the value it gives. *)
Theorem C7_exit_on_unhandled_faults_default raw st :
  field_errors TOTAL_LORA_DOWNLOAD_TIMEOUT max_threads_field queue_size_field
    max_lora_cache_size_field raw = [] ->
  exists cfg,
    fst (model_validate TOTAL_LORA_DOWNLOAD_TIMEOUT max_threads_field queue_size_field
           max_lora_cache_size_field extra_slow_worker_default dreamer_worker_name_default
           models_folder_parent_default horde_url_default raw st) = inr cfg
    /\ exit_on_unhandled_faults cfg = default false (raw_exit_on_unhandled_faults raw).
Proof.
  intros H. destruct (model_validate_returns raw st H) as [name Hname].
  exists (resolved (fields raw name)). split; [assumption | reflexivity].
Qed.

(** The field [safety_on_gpu] of the settings: [False] unless the
    configuration sets it. *)
Lemma safety_on_gpu_default raw st :
  errors raw = [] ->
  exists cfg,
    fst (construct raw st) = inr cfg
    /\ safety_on_gpu cfg = default false (raw_safety_on_gpu raw).
Proof.
  intros H. destruct (model_validate_returns raw st H) as [name Hname].
  exists (resolved (fields raw name)). split; [assumption | reflexivity].
Qed.

End Facts.

Lemma C6_timeout_bounds_witness :
  (exists errs,
     fst (example_model_validate (example_input (Some 31) None None None)
            (fresh_state (example_settings 1 1 false true false 300))) = inl errs
     /\ "inference_step_timeout" ∈ errs)
  /\ (exists cfg,
        fst (example_model_validate (example_input (Some 30) (Some 15) (Some 15) (Some 7))
               (fresh_state (example_settings 1 1 false true false 300))) = inr cfg
        /\ 15 <= inference_step_timeout cfg <= 30
        /\ 15 <= preload_timeout cfg
        /\ 15 <= post_process_timeout cfg).
Proof.
  unfold example_model_validate. split.
  - apply (proj1 (C6_timeout_bounds 1800 example_max_threads_field example_queue_size_field
                    example_max_lora_cache_size_field false "An Awesome Dreamer" "./"
                    "https://aihorde.net/api/" (example_input (Some 31) None None None)
                    (fresh_state (example_settings 1 1 false true false 300))) 31);
      [reflexivity | lia].
  - destruct (C6_timeout_bounds 1800 example_max_threads_field example_queue_size_field
                example_max_lora_cache_size_field false "An Awesome Dreamer" "./"
                "https://aihorde.net/api/"
                (example_input (Some 30) (Some 15) (Some 15) (Some 7))
                (fresh_state (example_settings 1 1 false true false 300)))
      as (_ & _ & _ & Hok).
    destruct Hok as [_ Hok].
    + unfold timeouts_in_bounds, supplied. cbn.
      split; [| split]; intros ? [= <-]; lia.
    + apply Hok. reflexivity.
Defined.

Lemma C7_exit_on_unhandled_faults_default_witness :
  exists cfg,
    fst (example_model_validate empty_input
           (fresh_state (example_settings 1 1 false true false 300))) = inr cfg
    /\ exit_on_unhandled_faults cfg = false.
Proof.
  apply (C7_exit_on_unhandled_faults_default 1800 example_max_threads_field
           example_queue_size_field example_max_lora_cache_size_field false
           "An Awesome Dreamer" "./" "https://aihorde.net/api/" empty_input
           (fresh_state (example_settings 1 1 false true false 300))).
  reflexivity.
Defined.

End Construction.

(** ** Properties of the entry points *)

Module EntryPointFacts.
Import EntryPoints Assertions.

(** Both entry points are [main_loop] of the object they build, run in
    the three context managers. *)
Lemma guarded_outcome (body : Exec) (st : ProcState) :
  fst (guarded body st) = after_catch (fst (body (redirected st))).
Proof.
  unfold guarded, with_, logger_catch, redirect_stdout, redirect_stderr, redirected.
  cbn. destruct (body _) as [[| e] st2]; cbn; [reflexivity |].
  destruct (issubclass e "Exception"); reflexivity.
Qed.

(** The streams are put back, whatever [main_loop] did to them. *)
Lemma guarded_restores_streams (body : Exec) (st : ProcState) :
  sys_stdout (snd (guarded body st)) = sys_stdout st
  /\ sys_stderr (snd (guarded body st)) = sys_stderr st.
Proof.
  unfold guarded, with_, logger_catch, redirect_stdout, redirect_stderr.
  cbn. destruct (body _) as [[| e] st2]; cbn; [split; reflexivity |].
  destruct (issubclass e "Exception"); split; reflexivity.
Qed.

(** An exception that is an instance of [Exception] is reported. *)
Lemma guarded_reports (body : Exec) (st st2 : ProcState) (e : PyException) :
  body (redirected st) = (Raised e, st2) ->
  issubclass e "Exception" = true ->
  caught (snd (guarded body st)) = (caught st2 ++ [e])%list.
Proof.
  intros Hbody He.
  unfold guarded, with_, logger_catch, redirect_stdout, redirect_stderr.
  cbn. unfold redirected in Hbody. rewrite Hbody. cbn. rewrite He. reflexivity.
Qed.

(** C2, as the entry points have it: whenever [main_loop], run by an
    entry point on the worker it built, raises an exception, the entry
    point returns normally if the exception is an instance of
    [Exception], and raises that same exception if it is not. *)
Theorem C2_exceptions_caught
    (process_id : Z) (process_message_queue : ProcessQueue) (pipe_connection : Connection)
    (inference_semaphore : Semaphore) (disk_lock : Lock) (cpu_only : option bool) :
  (exists w,
     class w = HordeInferenceProcess
     /\ forall main_loop st e st2,
          main_loop w (redirected st) = (Raised e, st2) ->
          fst (start_inference_process main_loop process_id process_message_queue
                 pipe_connection inference_semaphore disk_lock st)
          = if issubclass e "Exception" then Returned else Raised e)
  /\ (exists w,
        class w = HordeSafetyProcess
        /\ forall main_loop st e st2,
             main_loop w (redirected st) = (Raised e, st2) ->
             fst (start_safety_process main_loop process_id process_message_queue
                    pipe_connection disk_lock cpu_only st)
             = if issubclass e "Exception" then Returned else Raised e).
Proof.
  unfold start_inference_process, start_safety_process. cbn zeta.
  split.
  - exists {| class := HordeInferenceProcess;
              init_kwargs :=
                [("process_id", OInt process_id);
                 ("process_message_queue", OQueue process_message_queue);
                 ("pipe_connection", OConnection pipe_connection);
                 ("inference_semaphore", OSemaphore inference_semaphore);
                 ("disk_lock", OLock disk_lock)] |}.
    split; [reflexivity |]. intros main_loop st e st2 H.
    match goal with
    | |- fst (with_ _ (with_ _ (with_ _ ?body)) st) = _ =>
        etransitivity; [apply (guarded_outcome body st) |]
    end.
    now rewrite H.
  - exists {| class := HordeSafetyProcess;
              init_kwargs :=
                [("process_id", OInt process_id);
                 ("process_message_queue", OQueue process_message_queue);
                 ("pipe_connection", OConnection pipe_connection);
                 ("disk_lock", OLock disk_lock);
                 ("cpu_only", OBool (default true cpu_only))] |}.
    split; [reflexivity |]. intros main_loop st e st2 H.
    match goal with
    | |- fst (with_ _ (with_ _ (with_ _ ?body)) st) = _ =>
        etransitivity; [apply (guarded_outcome body st) |]
    end.
    now rewrite H.
Qed.

Lemma C2_exceptions_caught_witness :
  fst (start_inference_process (fun _ st => (Raised ValueError, st)) 0
         {| queue_id := 0 |} {| connection_id := 0 |} {| semaphore_id := 0 |}
         {| lock_id := 0 |} console_state) = Returned
  /\ fst (start_safety_process (fun _ st => (Raised ValueError, st)) 0
            {| queue_id := 0 |} {| connection_id := 0 |} {| lock_id := 0 |} None
            console_state) = Returned.
Proof.
  destruct (C2_exceptions_caught 0 {| queue_id := 0 |} {| connection_id := 0 |}
              {| semaphore_id := 0 |} {| lock_id := 0 |} None)
    as [(w1 & _ & H1) (w2 & _ & H2)].
  split.
  - exact (H1 (fun _ st => (Raised ValueError, st)) console_state ValueError
             (redirected console_state) eq_refl).
  - exact (H2 (fun _ st => (Raised ValueError, st)) console_state ValueError
             (redirected console_state) eq_refl).
Defined.

(** C2 as stated fails: an exception that is no instance of [Exception]
    leaves both entry points. *)
Lemma C2_keyboard_interrupt_propagates :
  fst (start_inference_process (fun _ st => (Raised KeyboardInterrupt, st)) 0
         {| queue_id := 0 |} {| connection_id := 0 |} {| semaphore_id := 0 |}
         {| lock_id := 0 |} console_state) = Raised KeyboardInterrupt
  /\ fst (start_safety_process (fun _ st => (Raised KeyboardInterrupt, st)) 1
            {| queue_id := 0 |} {| connection_id := 1 |} {| lock_id := 0 |} None
            console_state) = Raised KeyboardInterrupt.
Proof. split; reflexivity. Qed.

(** C3: the inference worker is built with the inference semaphore and
    the disk lock it is given; the safety worker is built with the disk
    lock it is given and with no semaphore at all. Given the same lock,
    both hold that lock. *)
Theorem C3_shared_resources
    (process_id process_id' : Z) (process_message_queue : ProcessQueue)
    (pipe_connection pipe_connection' : Connection)
    (inference_semaphore : Semaphore) (disk_lock : Lock) (cpu_only : option bool) :
  (exists w,
     class w = HordeInferenceProcess
     /\ kwarg (init_kwargs w) "inference_semaphore" = Some (OSemaphore inference_semaphore)
     /\ kwarg (init_kwargs w) "disk_lock" = Some (OLock disk_lock)
     /\ forall main_loop st,
          start_inference_process main_loop process_id process_message_queue
            pipe_connection inference_semaphore disk_lock st
          = guarded (main_loop w) st)
  /\ (exists w,
        class w = HordeSafetyProcess
        /\ kwarg (init_kwargs w) "inference_semaphore" = None
        /\ Forall (fun kv => is_semaphore kv.2 = false) (init_kwargs w)
        /\ kwarg (init_kwargs w) "disk_lock" = Some (OLock disk_lock)
        /\ forall main_loop st,
             start_safety_process main_loop process_id' process_message_queue
               pipe_connection' disk_lock cpu_only st
             = guarded (main_loop w) st).
Proof.
  split; eexists; repeat split; try reflexivity.
  repeat constructor.
Qed.

(** The safety worker is built with the [cpu_only] it is given, [True]
    when the caller gives none. *)
Lemma start_safety_process_cpu_only
    (process_id : Z) (process_message_queue : ProcessQueue) (pipe_connection : Connection)
    (disk_lock : Lock) (cpu_only : option bool) :
  exists w,
    class w = HordeSafetyProcess
    /\ kwarg (init_kwargs w) "cpu_only" = Some (OBool (default true cpu_only))
    /\ forall main_loop st,
         start_safety_process main_loop process_id process_message_queue pipe_connection
           disk_lock cpu_only st
         = guarded (main_loop w) st.
Proof. eexists; repeat split; reflexivity. Qed.

(** C4: the safety entry point hands its [cpu_only] (default [True]) to
    the safety process it builds; the settings have the flag
    [safety_on_gpu], [False] unless the configuration sets it. *)
Theorem C4_safety_execution_target
    (TOTAL_LORA_DOWNLOAD_TIMEOUT : Z)
    (max_threads_field queue_size_field max_lora_cache_size_field : Pydantic.IntField)
    (extra_slow_worker_default : bool)
    (dreamer_worker_name_default models_folder_parent_default horde_url_default : string)
    (raw : BridgeData.RawInput) (st : BridgeData.PyState)
    (process_id : Z) (process_message_queue : ProcessQueue) (pipe_connection : Connection)
    (disk_lock : Lock) (cpu_only : option bool) :
  (exists w,
     class w = HordeSafetyProcess
     /\ kwarg (init_kwargs w) "cpu_only" = Some (OBool (default true cpu_only))
     /\ forall main_loop pst,
          start_safety_process main_loop process_id process_message_queue pipe_connection
            disk_lock cpu_only pst
          = guarded (main_loop w) pst)
  /\ (BridgeData.field_errors TOTAL_LORA_DOWNLOAD_TIMEOUT max_threads_field queue_size_field
        max_lora_cache_size_field raw = [] ->
      exists cfg,
        fst (BridgeData.model_validate TOTAL_LORA_DOWNLOAD_TIMEOUT max_threads_field
               queue_size_field max_lora_cache_size_field extra_slow_worker_default
               dreamer_worker_name_default models_folder_parent_default horde_url_default
               raw st) = inr cfg
        /\ BridgeData.safety_on_gpu cfg = default false (BridgeData.raw_safety_on_gpu raw)).
Proof.
  split.
  - apply start_safety_process_cpu_only.
  - apply Construction.safety_on_gpu_default.
Qed.

(** With no key in the configuration and no [cpu_only] in the call (or
    the negation of [safety_on_gpu] as [cpu_only]), the safety process is
    built with [cpu_only = True]. *)
Lemma C4_safety_execution_target_witness :
  exists cfg w,
    fst (example_model_validate BridgeData.empty_input
           (fresh_state (example_settings 1 1 false true false 300))) = inr cfg
    /\ BridgeData.safety_on_gpu cfg = false
    /\ kwarg (init_kwargs w) "cpu_only" = Some (OBool true)
    /\ (forall main_loop pst,
          start_safety_process main_loop 0 {| queue_id := 0 |} {| connection_id := 0 |}
            {| lock_id := 0 |} None pst
          = guarded (main_loop w) pst)
    /\ (forall main_loop pst,
          start_safety_process main_loop 0 {| queue_id := 0 |} {| connection_id := 0 |}
            {| lock_id := 0 |} (Some (negb (BridgeData.safety_on_gpu cfg))) pst
          = guarded (main_loop w) pst).
Proof.
  destruct (C4_safety_execution_target 1800 example_max_threads_field
              example_queue_size_field example_max_lora_cache_size_field false
              "An Awesome Dreamer" "./" "https://aihorde.net/api/" BridgeData.empty_input
              (fresh_state (example_settings 1 1 false true false 300))
              0 {| queue_id := 0 |} {| connection_id := 0 |} {| lock_id := 0 |} None)
    as [(w & _ & Hcpu & Hrun) Hcfg].
  destruct (Hcfg eq_refl) as (cfg & Hok & Hgpu).
  exists cfg, w. cbn in Hgpu. repeat split; try assumption.
  intros main_loop pst. rewrite Hgpu. apply Hrun.
Defined.

End EntryPointFacts.

(** ** More on the settings validator *)

Module ValidatorFacts.
Import BridgeData Assertions Reasoning.

(** The validator only lowers [queue_size], and then to 3 or to 0,
    only lowers [max_threads], and then to 1, and only raises
    [preload_timeout], and then to 120. *)
Theorem validate_performance_modes_adjustments st :
  (queue_size (fst (validate_performance_modes st)) = queue_size (self_fields st)
   \/ (queue_size (fst (validate_performance_modes st)) = 3
       /\ queue_size (self_fields st) > 3)
   \/ (queue_size (fst (validate_performance_modes st)) = 0
       /\ queue_size (self_fields st) > 0))
  /\ (max_threads (fst (validate_performance_modes st)) = max_threads (self_fields st)
      \/ (max_threads (fst (validate_performance_modes st)) = 1
          /\ max_threads (self_fields st) > 1))
  /\ (preload_timeout (fst (validate_performance_modes st))
      = preload_timeout (self_fields st)
      \/ (preload_timeout (fst (validate_performance_modes st)) = 120
          /\ preload_timeout (self_fields st) < 120)).
Proof.
  destruct (validate_performance_modes_resolved st) as [-> _].
  unfold resolved; fields_norm.
  destruct (extra_slow_worker (self_fields st)); cbn;
    repeat (case_bool_decide; cbn in * ); lia.
Qed.

(** After validation [very_high_memory_mode] comes with
    [high_memory_mode], and [high_memory_mode] excludes
    [cycle_process_on_model_change]. *)
Theorem validate_performance_modes_memory_modes st :
  (very_high_memory_mode (fst (validate_performance_modes st)) = true ->
   high_memory_mode (fst (validate_performance_modes st)) = true)
  /\ (high_memory_mode (fst (validate_performance_modes st)) = true ->
      cycle_process_on_model_change (fst (validate_performance_modes st)) = false).
Proof.
  destruct (validate_performance_modes_resolved st) as [-> _].
  unfold resolved; fields_norm.
  destruct (extra_slow_worker (self_fields st)), (high_memory_mode (self_fields st)),
    (very_high_memory_mode (self_fields st)),
    (cycle_process_on_model_change (self_fields st)); cbn; split; congruence.
Qed.

Lemma validate_performance_modes_memory_modes_witness :
  very_high_memory_mode
    (fst (validate_performance_modes
            (fresh_state (setattr (Set_very_high_memory_mode true)
                            (setattr (Set_high_memory_mode false)
                               (setattr (Set_cycle_process_on_model_change true)
                                  (example_settings 1 1 false false false 300)))))))
  = true
  /\ high_memory_mode
       (fst (validate_performance_modes
               (fresh_state (setattr (Set_very_high_memory_mode true)
                               (setattr (Set_high_memory_mode false)
                                  (setattr (Set_cycle_process_on_model_change true)
                                     (example_settings 1 1 false false false 300)))))))
     = true
  /\ cycle_process_on_model_change
       (fst (validate_performance_modes
               (fresh_state (setattr (Set_very_high_memory_mode true)
                               (setattr (Set_high_memory_mode false)
                                  (setattr (Set_cycle_process_on_model_change true)
                                     (example_settings 1 1 false false false 300)))))))
     = false.
Proof.
  destruct (validate_performance_modes_memory_modes
              (fresh_state (setattr (Set_very_high_memory_mode true)
                              (setattr (Set_high_memory_mode false)
                                 (setattr (Set_cycle_process_on_model_change true)
                                    (example_settings 1 1 false false false 300))))))
    as [H1 H2].
  split; [reflexivity |]. split; [apply H1; reflexivity | apply H2; reflexivity].
Defined.

(** The validator assigns nine fields and no other, and it leaves the
    environment, the files and the private attributes alone. *)
Theorem validate_performance_modes_untouched st :
  same_unassigned_fields (self_fields st) (fst (validate_performance_modes st))
  /\ environ (snd (validate_performance_modes st)) = environ st
  /\ files (snd (validate_performance_modes st)) = files st
  /\ cwd (snd (validate_performance_modes st)) = cwd st
  /\ _yaml_loader (snd (validate_performance_modes st)) = _yaml_loader st
  /\ _loaded_from_env_vars (snd (validate_performance_modes st)) = _loaded_from_env_vars st.
Proof.
  split; [| apply validate_performance_modes_frame].
  destruct (validate_performance_modes_resolved st) as [-> _].
  unfold same_unassigned_fields, resolved; fields_norm. repeat split.
Qed.

(** A configuration with both performance modes and [extra_slow_worker]
    off, a [queue_size] within the limit and consistent memory modes
    goes through the validator unchanged. *)
Theorem validate_performance_modes_settled st :
  settled (self_fields st) ->
  fst (validate_performance_modes st) = self_fields st.
Proof.
  intros (Hhp & Hmp & Hesw & Hq & Hvhm & Hhm).
  destruct (validate_performance_modes_resolved st) as [-> _].
  apply reGenBridgeData_eq; unfold resolved; fields_norm; try reflexivity;
    rewrite ?Hhp, ?Hmp, ?Hesw; cbn; try reflexivity;
    try (destruct (high_memory_mode (self_fields st)) eqn:E1,
           (very_high_memory_mode (self_fields st)) eqn:E2; cbn; try reflexivity;
         first [now rewrite Hhm | now specialize (Hvhm eq_refl)]);
    repeat (case_bool_decide; cbn in * ); try reflexivity; lia.
Qed.

Lemma validate_performance_modes_settled_witness :
  fst (validate_performance_modes
         (fresh_state (example_settings 2 3 false false false 240)))
  = example_settings 2 3 false false false 240.
Proof.
  apply (validate_performance_modes_settled
           (fresh_state (example_settings 2 3 false false false 240))).
  unfold settled. cbn. repeat split; try reflexivity; try lia; intros; congruence.
Defined.

End ValidatorFacts.

(** ** More on the construction *)

Module ConstructionFacts.
Import BridgeData Assertions Reasoning.

Section Facts.

Variable TOTAL_LORA_DOWNLOAD_TIMEOUT : Z.
Variables max_threads_field queue_size_field max_lora_cache_size_field : Pydantic.IntField.
Variable extra_slow_worker_default : bool.
Variables dreamer_worker_name_default models_folder_parent_default horde_url_default : string.

(** What a construction without errors returns, with the name the field
    validator of [dreamer_worker_name] gave. *)
Lemma model_validate_value raw st :
  field_errors TOTAL_LORA_DOWNLOAD_TIMEOUT max_threads_field queue_size_field
    max_lora_cache_size_field raw = [] ->
  fst (model_validate TOTAL_LORA_DOWNLOAD_TIMEOUT max_threads_field queue_size_field
         max_lora_cache_size_field extra_slow_worker_default dreamer_worker_name_default
         models_folder_parent_default horde_url_default raw st)
  = inr (resolved
           (validated_fields TOTAL_LORA_DOWNLOAD_TIMEOUT max_threads_field queue_size_field
              max_lora_cache_size_field extra_slow_worker_default
              models_folder_parent_default horde_url_default raw
              (match raw_dreamer_worker_name raw with
               | Some value =>
                   match environ st !! "AIWORKER_DREAMER_WORKER_NAME" with
                   | Some name => if str_truthy name then name else value
                   | None => value
                   end
               | None => dreamer_worker_name_default
               end))).
Proof.
  intros H. unfold model_validate, mbind, Method_bind.
  assert (Hname :
    fst (match raw_dreamer_worker_name raw with
         | Some value => validate_dreamer_worker_name value
         | None => mret dreamer_worker_name_default
         end st)
    = match raw_dreamer_worker_name raw with
      | Some value =>
          match environ st !! "AIWORKER_DREAMER_WORKER_NAME" with
          | Some name => if str_truthy name then name else value
          | None => value
          end
      | None => dreamer_worker_name_default
      end).
  { destruct (raw_dreamer_worker_name raw) as [value |]; [| reflexivity].
    unfold validate_dreamer_worker_name, mbind, Method_bind, getenv, env_truthy.
    destruct (environ st !! "AIWORKER_DREAMER_WORKER_NAME") as [name |]; cbn;
      [destruct (str_truthy name) |]; reflexivity. }
  destruct (match raw_dreamer_worker_name raw with
            | Some value => validate_dreamer_worker_name value
            | None => mret dreamer_worker_name_default
            end st) as [name st1].
  cbn in Hname. subst name.
  rewrite bool_decide_eq_true_2 by assumption.
  unfold set_instance.
  match goal with
  | |- context [validate_performance_modes ?st2] =>
      pose proof (proj1 (validate_performance_modes_resolved st2)) as Hr;
      destruct (validate_performance_modes st2) as [self st3]
  end.
  cbn in Hr |- *. now rewrite Hr.
Qed.

(** The [process_timeout] of a constructed settings value: 100 unless
    the configuration turns [high_performance_mode] off, then 150 if it
    turns [moderate_performance_mode] on, and only otherwise the
    supplied value or the declared default 300. *)
Theorem model_validate_process_timeout raw st :
  field_errors TOTAL_LORA_DOWNLOAD_TIMEOUT max_threads_field queue_size_field
    max_lora_cache_size_field raw = [] ->
  exists cfg,
    fst (model_validate TOTAL_LORA_DOWNLOAD_TIMEOUT max_threads_field queue_size_field
           max_lora_cache_size_field extra_slow_worker_default dreamer_worker_name_default
           models_folder_parent_default horde_url_default raw st) = inr cfg
    /\ process_timeout cfg
       = if default true (raw_high_performance_mode raw) then 100
         else if default false (raw_moderate_performance_mode raw) then 150
              else default 300 (raw_process_timeout raw).
Proof.
  intros H. eexists. split; [now apply model_validate_value |].
  unfold resolved; fields_norm. unfold validated_fields; fields_norm.
  unfold Pydantic.validate_plain, Pydantic.validate_int, Pydantic.validate_with.
  destruct (raw_high_performance_mode raw) as [[] |],
    (raw_moderate_performance_mode raw) as [[] |], (raw_process_timeout raw);
    reflexivity.
Qed.

(** [minutes_allowed_without_jobs] must be in [0, 3600): a supplied
    value outside makes the construction raise an error that names the
    field, and a constructed settings value has it in that range. *)
Theorem model_validate_minutes_allowed_without_jobs raw st :
  (forall v, raw_minutes_allowed_without_jobs raw = Some v -> v < 0 \/ v >= 3600 ->
     exists errs,
       fst (model_validate TOTAL_LORA_DOWNLOAD_TIMEOUT max_threads_field queue_size_field
              max_lora_cache_size_field extra_slow_worker_default
              dreamer_worker_name_default models_folder_parent_default horde_url_default
              raw st) = inl errs
       /\ "minutes_allowed_without_jobs" ∈ errs)
  /\ (forall cfg,
        fst (model_validate TOTAL_LORA_DOWNLOAD_TIMEOUT max_threads_field queue_size_field
               max_lora_cache_size_field extra_slow_worker_default
               dreamer_worker_name_default models_folder_parent_default horde_url_default
               raw st) = inr cfg ->
        0 <= minutes_allowed_without_jobs cfg < 3600).
Proof.
  split.
  - intros v Hv Hbad.
    exists (field_errors TOTAL_LORA_DOWNLOAD_TIMEOUT max_threads_field queue_size_field
              max_lora_cache_size_field raw).
    assert (Hin : "minutes_allowed_without_jobs"
                  ∈ field_errors TOTAL_LORA_DOWNLOAD_TIMEOUT max_threads_field
                      queue_size_field max_lora_cache_size_field raw).
    { unfold field_errors. rewrite Hv.
      rewrite (Construction.validate_int_error minutes_allowed_without_jobs_field).
      - rewrite !elem_of_app, !elem_of_cons. auto 20.
      - unfold Pydantic.int_ok. cbn. repeat case_bool_decide; try reflexivity; lia. }
    split; [| exact Hin].
    apply Construction.model_validate_raises. intros Hnil. rewrite Hnil in Hin.
    now apply not_elem_of_nil in Hin.
  - intros cfg Hcfg.
    destruct (decide (field_errors TOTAL_LORA_DOWNLOAD_TIMEOUT max_threads_field
                        queue_size_field max_lora_cache_size_field raw = []))
      as [Hnil | Hne].
    + rewrite (model_validate_value raw st Hnil) in Hcfg. injection Hcfg as <-.
      unfold resolved; fields_norm. unfold validated_fields; fields_norm.
      unfold field_errors in Hnil.
      repeat match type of Hnil with
             | (_ ++ _)%list = [] => apply app_eq_nil in Hnil; destruct Hnil as [? Hnil]
             end.
      match goal with
      | H0 : (Pydantic.validate_int minutes_allowed_without_jobs_field _ _).1 = [] |- _ =>
          revert H0
      end.
      unfold Pydantic.validate_int, Pydantic.validate_with, Pydantic.int_ok. cbn.
      destruct (raw_minutes_allowed_without_jobs raw); cbn;
        repeat (case_bool_decide; cbn in * ); intros; try discriminate; lia.
    + rewrite (Construction.model_validate_raises _ _ _ _ _ _ _ _ raw st Hne) in Hcfg.
      discriminate.
Qed.

(** The name of the worker: a name given in the configuration is
    replaced by the environment variable [AIWORKER_DREAMER_WORKER_NAME]
    when that is set and not empty, and kept otherwise. *)
Theorem model_validate_dreamer_worker_name raw st value :
  field_errors TOTAL_LORA_DOWNLOAD_TIMEOUT max_threads_field queue_size_field
    max_lora_cache_size_field raw = [] ->
  raw_dreamer_worker_name raw = Some value ->
  exists cfg,
    fst (model_validate TOTAL_LORA_DOWNLOAD_TIMEOUT max_threads_field queue_size_field
           max_lora_cache_size_field extra_slow_worker_default dreamer_worker_name_default
           models_folder_parent_default horde_url_default raw st) = inr cfg
    /\ dreamer_worker_name cfg
       = match environ st !! "AIWORKER_DREAMER_WORKER_NAME" with
         | Some name => if str_truthy name then name else value
         | None => value
         end.
Proof.
  intros H Hname. eexists. split; [now apply model_validate_value |].
  unfold resolved; fields_norm. unfold validated_fields; fields_norm.
  now rewrite Hname.
Qed.

End Facts.

Lemma model_validate_process_timeout_witness :
  exists cfg,
    fst (example_model_validate (example_input None None None (Some 600))
           (fresh_state (example_settings 1 1 false true false 300))) = inr cfg
    /\ process_timeout cfg = 100.
Proof.
  apply (model_validate_process_timeout 1800 example_max_threads_field
           example_queue_size_field example_max_lora_cache_size_field false
           "An Awesome Dreamer" "./" "https://aihorde.net/api/"
           (example_input None None None (Some 600))
           (fresh_state (example_settings 1 1 false true false 300))).
  reflexivity.
Defined.

Lemma model_validate_minutes_allowed_without_jobs_witness :
  (exists errs,
     fst (example_model_validate (example_named_input (Some 3600) None)
            (fresh_state (example_settings 1 1 false true false 300))) = inl errs
     /\ "minutes_allowed_without_jobs" ∈ errs)
  /\ (forall cfg,
        fst (example_model_validate (example_named_input (Some 3599) None)
               (fresh_state (example_settings 1 1 false true false 300))) = inr cfg ->
        0 <= minutes_allowed_without_jobs cfg < 3600).
Proof.
  split.
  - apply (proj1 (model_validate_minutes_allowed_without_jobs 1800
                    example_max_threads_field example_queue_size_field
                    example_max_lora_cache_size_field false "An Awesome Dreamer" "./"
                    "https://aihorde.net/api/" (example_named_input (Some 3600) None)
                    (fresh_state (example_settings 1 1 false true false 300))) 3600);
      [reflexivity | lia].
  - apply (proj2 (model_validate_minutes_allowed_without_jobs 1800
                    example_max_threads_field example_queue_size_field
                    example_max_lora_cache_size_field false "An Awesome Dreamer" "./"
                    "https://aihorde.net/api/" (example_named_input (Some 3599) None)
                    (fresh_state (example_settings 1 1 false true false 300)))).
Defined.

Lemma model_validate_dreamer_worker_name_witness :
  exists cfg,
    fst (example_model_validate (example_named_input None (Some "from the file"))
           (state_with_environ {[ "AIWORKER_DREAMER_WORKER_NAME" := "from the environment" ]}
              (example_settings 1 1 false true false 300))) = inr cfg
    /\ dreamer_worker_name cfg = "from the environment".
Proof.
  destruct (model_validate_dreamer_worker_name 1800 example_max_threads_field
              example_queue_size_field example_max_lora_cache_size_field false
              "An Awesome Dreamer" "./" "https://aihorde.net/api/"
              (example_named_input None (Some "from the file"))
              (state_with_environ
                 {[ "AIWORKER_DREAMER_WORKER_NAME" := "from the environment" ]}
                 (example_settings 1 1 false true false 300))
              "from the file") as (cfg & Hcfg & Hname); [reflexivity | reflexivity |].
  exists cfg. split; [exact Hcfg |].
  rewrite Hname. cbn [environ state_with_environ]. now rewrite lookup_singleton_eq.
Defined.

End ConstructionFacts.

(** ** The environment after [load_env_vars] *)

Module EnvironmentFacts.
Import BridgeData Assertions Reasoning.

Lemma wp_bind_getenv {A} key (k : option string -> Method A) Q st :
  wp (k (environ st !! key)) Q st -> wp (getenv key ≫= k) Q st.
Proof. auto. Qed.

Lemma wp_when_getenv (c : bool) key (k : option string -> Method unit) Q st :
  wp (when c (k (environ st !! key))) Q st -> wp (when c (getenv key ≫= k)) Q st.
Proof. destruct c; auto. Qed.

Lemma wp_when_setenv (c : bool) key v Q st :
  Q tt (with_environ (if c then <[key := v]> (environ st) else environ st) st) ->
  wp (when c (setenv key v)) Q st.
Proof. destruct c; cbn; auto. destruct st; auto. Qed.

Ltac env_norm :=
  unfold with_self, with_log, with_environ;
  cbn [self_fields _loaded_from_env_vars _yaml_loader environ cwd files log andb negb].

Ltac env_step :=
  lazymatch goal with
  | |- wp (get_self ≫= _) _ _ => apply wp_bind_get_self
  | |- wp (getenv _ ≫= _) _ _ => apply wp_bind_getenv
  | |- wp (when _ (getenv _ ≫= _)) _ _ => apply wp_when_getenv
  | |- wp (when _ (when _ _)) _ _ => apply wp_when_when
  | |- wp (when _ (if _ then _ else _)) _ _ => apply wp_when_if
  | |- wp (when _ (mret _)) _ _ => apply wp_when_ret
  | |- wp (when _ (setenv _ _)) _ _ => apply wp_when_setenv
  | |- wp (when _ (logger _ _)) _ _ => apply wp_when_logger
  | |- wp (when _ (_ ≫= _)) _ _ => apply wp_when_seq
  | |- wp (when _ _ ≫= _) _ _ => apply wp_bind
  | |- wp (setenv _ _ ≫= _) _ _ => apply wp_top
  | |- wp (mret tt ≫= _) _ _ => apply wp_top
  end;
  env_norm.

(** [load_env_vars] in closed form: the environment it leaves, and the
    files, which it does not touch. *)
Lemma load_env_vars_state st :
  environ (exec load_env_vars st) = load_env_vars_environ (self_fields st) (environ st)
  /\ files (exec load_env_vars st) = files st.
Proof.
  destruct st as [self l y e c f lg].
  change (wp load_env_vars
            (fun _ st' => environ st' = load_env_vars_environ self e /\ files st' = f)
            {| self_fields := self; _loaded_from_env_vars := l; _yaml_loader := y;
               environ := e; cwd := c; files := f; log := lg |}).
  unfold load_env_vars.
  repeat env_step.
  destruct (CIVIT_API_TOKEN self) as [token |] eqn:Htoken; repeat env_step;
    (split; [| reflexivity]);
    unfold load_env_vars_environ; rewrite Htoken; cbn zeta;
    destruct (str_truthy (models_folder_parent self)
              && bool_decide (e !! "AIWORKER_CACHE_HOME" = None));
    destruct (str_truthy (horde_url self)); cbn [andb]; try reflexivity;
    match goal with
    | |- context [?m !! "AI_HORDE_URL"] => destruct (m !! "AI_HORDE_URL") as [url |]
    end;
    unfold env_truthy; cbn [from_option negb];
    rewrite ?(bool_decide_eq_false_2 (Some _ = None)) by discriminate;
    rewrite ?(bool_decide_eq_true_2 (None = None)) by reflexivity;
    rewrite ?andb_false_r; reflexivity.
Qed.

Lemma lookup_if_insert (c : bool) (k k' v : string) (m : gmap string string) :
  (if c then <[k := v]> m else m) !! k'
  = if c && bool_decide (k = k') then Some v else m !! k'.
Proof.
  destruct c; cbn; [| reflexivity].
  case_bool_decide; [subst; apply lookup_insert_eq | now apply lookup_insert_ne].
Qed.

(** Looks a variable up in [load_env_vars_environ], layer by layer. *)
Ltac env_lookup :=
  unfold load_env_vars_environ, set_if_absent; cbn zeta;
  repeat match goal with
    | |- context [CIVIT_API_TOKEN ?x] => destruct (CIVIT_API_TOKEN x)
    end;
  repeat first
    [ rewrite lookup_if_insert
    | rewrite lookup_insert_eq
    | rewrite lookup_insert_ne by congruence ];
  repeat match goal with
    | |- context [bool_decide (?a = ?b)] =>
        first [ rewrite (bool_decide_eq_true_2 (a = b)) by reflexivity
              | rewrite (bool_decide_eq_false_2 (a = b)) by congruence ]
    end;
  rewrite ?andb_true_r, ?andb_false_r;
  repeat match goal with
    | |- context [?m !! ?k] => is_var m; destruct (m !! k)
    end;
  rewrite ?(bool_decide_eq_false_2 (Some _ = None)) by discriminate;
  rewrite ?(bool_decide_eq_true_2 (None = None)) by reflexivity;
  rewrite ?andb_true_r, ?andb_false_r;
  repeat match goal with
    | |- context [if ?c then _ else _] => destruct c
    end;
  try reflexivity.

Section Lookups.

Variables (self : reGenBridgeData) (e : gmap string string).

Lemma lookup_cache_home :
  load_env_vars_environ self e !! "AIWORKER_CACHE_HOME"
  = set_if_absent (e !! "AIWORKER_CACHE_HOME") (models_folder_parent self)
      (str_truthy (models_folder_parent self)).
Proof. env_lookup. Qed.

Lemma lookup_horde_url :
  load_env_vars_environ self e !! "AI_HORDE_URL"
  = set_if_absent (e !! "AI_HORDE_URL") (horde_url self) (str_truthy (horde_url self)).
Proof. env_lookup. Qed.

Lemma lookup_lora_cache_size :
  load_env_vars_environ self e !! "AIWORKER_LORA_CACHE_SIZE"
  = set_if_absent (e !! "AIWORKER_LORA_CACHE_SIZE")
      (pretty (max_lora_cache_size self * 1024))
      (negb (Z.eqb (max_lora_cache_size self) 0)).
Proof. env_lookup. Qed.

Lemma lookup_civit_api_token :
  load_env_vars_environ self e !! "CIVIT_API_TOKEN"
  = match CIVIT_API_TOKEN self with
    | Some token => Some token
    | None => e !! "CIVIT_API_TOKEN"
    end.
Proof. env_lookup. Qed.

Lemma lookup_large_models :
  load_env_vars_environ self e !! "AI_HORDE_MODEL_META_LARGE_MODELS"
  = if load_large_models self then Some "1"
    else e !! "AI_HORDE_MODEL_META_LARGE_MODELS".
Proof. env_lookup. Qed.

Lemma lookup_other (k : string) :
  k ∉ load_env_vars_keys -> load_env_vars_environ self e !! k = e !! k.
Proof.
  unfold load_env_vars_keys. rewrite !not_elem_of_cons. intros (? & ? & ? & ? & ? & _).
  env_lookup.
Qed.

End Lookups.

(** [AIWORKER_CACHE_HOME], [AI_HORDE_URL] and [AIWORKER_LORA_CACHE_SIZE]
    are set from the configuration only when the environment does not
    have them: a value that is there, even an empty one, is kept. *)
Theorem load_env_vars_sets_absent st :
  environ (exec load_env_vars st) !! "AIWORKER_CACHE_HOME"
  = set_if_absent (environ st !! "AIWORKER_CACHE_HOME")
      (models_folder_parent (self_fields st))
      (str_truthy (models_folder_parent (self_fields st)))
  /\ environ (exec load_env_vars st) !! "AI_HORDE_URL"
     = set_if_absent (environ st !! "AI_HORDE_URL") (horde_url (self_fields st))
         (str_truthy (horde_url (self_fields st)))
  /\ environ (exec load_env_vars st) !! "AIWORKER_LORA_CACHE_SIZE"
     = set_if_absent (environ st !! "AIWORKER_LORA_CACHE_SIZE")
         (pretty (max_lora_cache_size (self_fields st) * 1024))
         (negb (Z.eqb (max_lora_cache_size (self_fields st)) 0)).
Proof.
  rewrite (proj1 (load_env_vars_state st)).
  split; [apply lookup_cache_home |].
  split; [apply lookup_horde_url | apply lookup_lora_cache_size].
Qed.

(** [CIVIT_API_TOKEN] and [AI_HORDE_MODEL_META_LARGE_MODELS] are set
    from the configuration over what the environment has; without a
    token, or with [load_large_models] off, the variable is left as it
    is, not removed. *)
Theorem load_env_vars_overrides st :
  environ (exec load_env_vars st) !! "CIVIT_API_TOKEN"
  = match CIVIT_API_TOKEN (self_fields st) with
    | Some token => Some token
    | None => environ st !! "CIVIT_API_TOKEN"
    end
  /\ environ (exec load_env_vars st) !! "AI_HORDE_MODEL_META_LARGE_MODELS"
     = if load_large_models (self_fields st) then Some "1"
       else environ st !! "AI_HORDE_MODEL_META_LARGE_MODELS".
Proof.
  rewrite (proj1 (load_env_vars_state st)).
  split; [apply lookup_civit_api_token | apply lookup_large_models].
Qed.

(** [load_env_vars] touches no other variable, and no file. *)
Theorem load_env_vars_other_variables st (k : string) :
  k ∉ load_env_vars_keys ->
  environ (exec load_env_vars st) !! k = environ st !! k
  /\ files (exec load_env_vars st) = files st.
Proof.
  intros Hk. split; [| apply load_env_vars_state].
  rewrite (proj1 (load_env_vars_state st)). now apply lookup_other.
Qed.

Lemma load_env_vars_other_variables_witness :
  environ (exec load_env_vars
             (state_with_environ {[ "PATH" := "/usr/bin" ]}
                (example_settings 1 1 false true false 300))) !! "PATH"
  = Some "/usr/bin".
Proof.
  assert (H : "PATH" ∉ load_env_vars_keys).
  { unfold load_env_vars_keys. rewrite !not_elem_of_cons. repeat split; try discriminate.
    apply not_elem_of_nil. }
  rewrite (proj1 (load_env_vars_other_variables
                    (state_with_environ {[ "PATH" := "/usr/bin" ]}
                       (example_settings 1 1 false true false 300)) "PATH" H)).
  apply lookup_singleton_eq.
Defined.

Lemma load_env_vars_environ_idempotent self e :
  load_env_vars_environ self (load_env_vars_environ self e) = load_env_vars_environ self e.
Proof.
  apply map_eq. intros k.
  destruct (decide (k = "AIWORKER_CACHE_HOME")) as [-> | ?];
    [rewrite !lookup_cache_home; unfold set_if_absent; destruct (e !! _); [reflexivity |];
     match goal with |- context [if ?c then _ else _] => now destruct c end |].
  destruct (decide (k = "AI_HORDE_URL")) as [-> | ?];
    [rewrite !lookup_horde_url; unfold set_if_absent; destruct (e !! _); [reflexivity |];
     match goal with |- context [if ?c then _ else _] => now destruct c end |].
  destruct (decide (k = "AIWORKER_LORA_CACHE_SIZE")) as [-> | ?];
    [rewrite !lookup_lora_cache_size; unfold set_if_absent; destruct (e !! _); [reflexivity |];
     match goal with |- context [if ?c then _ else _] => now destruct c end |].
  destruct (decide (k = "CIVIT_API_TOKEN")) as [-> | ?];
    [rewrite !lookup_civit_api_token; now destruct (CIVIT_API_TOKEN self) |].
  destruct (decide (k = "AI_HORDE_MODEL_META_LARGE_MODELS")) as [-> | ?];
    [rewrite !lookup_large_models; now destruct (load_large_models self) |].
  apply lookup_other. unfold load_env_vars_keys. rewrite !not_elem_of_cons.
  repeat split; try assumption. apply not_elem_of_nil.
Qed.

(** Running [load_env_vars] again changes neither the environment nor
    the files. *)
Theorem load_env_vars_idempotent st :
  environ (exec load_env_vars (exec load_env_vars st)) = environ (exec load_env_vars st)
  /\ files (exec load_env_vars (exec load_env_vars st)) = files (exec load_env_vars st).
Proof.
  split; [| now rewrite !(proj2 (load_env_vars_state _))].
  rewrite (proj1 (load_env_vars_state (exec load_env_vars st))).
  unfold exec at 1. rewrite (Operations.keeps_load_env_vars st).
  rewrite (proj1 (load_env_vars_state st)).
  apply load_env_vars_environ_idempotent.
Qed.

End EnvironmentFacts.

(** ** The custom models *)

Module CustomModelsFacts.
Import BridgeData Assertions Reasoning.

Section Facts.

Variable repr : PyDict -> string.

(** The loop touches the log only, and returns [collected]. *)
Lemma collect_custom_models_state models d st :
  fst (collect_custom_models repr models d st) = collected models d
  /\ environ (snd (collect_custom_models repr models d st)) = environ st
  /\ files (snd (collect_custom_models repr models d st)) = files st
  /\ cwd (snd (collect_custom_models repr models d st)) = cwd st.
Proof.
  revert d st. induction models as [| model rest IH]; intros d st; [repeat split |].
  cbn [collect_custom_models collected]. unfold complete.
  destruct (truthy (dict_get model "name")); cbn [negb andb];
    [destruct (truthy (dict_get model "baseline")); cbn [negb andb];
       [destruct (truthy (dict_get model "filepath")); cbn [negb andb] | ] |];
    try apply IH;
    unfold mbind, Method_bind, logger;
    match goal with
    | |- context [collect_custom_models repr rest d ?st1] =>
        destruct (IH d st1) as (H1 & H2 & H3 & H4); cbn in H2, H3, H4 |- *;
        destruct (collect_custom_models repr rest d st1); cbn in *; auto
    end.
Qed.

Lemma dict_setitem_not_nil {V} (d : OrderedDict V) k v : dict_setitem d k v <> [].
Proof. destruct d as [| [k' v'] d]; cbn; [| destruct (py_eqb k' k)]; discriminate. Qed.

Lemma collected_not_nil models d : d <> [] -> collected models d <> [].
Proof.
  revert d. induction models as [| model rest IH]; intros d Hd; cbn; [assumption |].
  destruct (complete model); apply IH; [apply dict_setitem_not_nil | assumption].
Qed.

(** The dictionary is empty exactly when no entry is complete. *)
Lemma collected_nil models :
  collected models [] = [] <-> Forall (fun model => complete model = false) models.
Proof.
  induction models as [| model rest IH]; cbn; [split; [constructor | reflexivity] |].
  destruct (complete model) eqn:E.
  - split.
    + intros H. now apply collected_not_nil in H.
    + intros H. inversion H; subst. congruence.
  - rewrite IH. split; [now constructor | intros H; now inversion H].
Qed.

Lemma dict_setitem_length {V} (d : OrderedDict V) k v :
  (length (dict_setitem d k v) <= S (length d))%nat.
Proof.
  induction d as [| [k' v'] d IH]; cbn; [lia |]. destruct (py_eqb k' k); cbn; lia.
Qed.

Lemma collected_length models d :
  (length (collected models d) <= length models + length d)%nat.
Proof.
  revert d. induction models as [| model rest IH]; intros d; cbn; [lia |].
  destruct (complete model).
  - etransitivity; [apply IH |]. pose proof (dict_setitem_length d (dict_get model "name")
      {| cm_name := dict_get model "name"; cm_baseline := dict_get model "baseline";
         cm_type := "ckpt"; cm_config_files_path := dict_get model "filepath" |}). lia.
  - etransitivity; [apply IH |]. lia.
Qed.

Lemma py_eqb_refl_truthy v : truthy v = true -> py_eqb v v = true.
Proof.
  destruct v as [| b | z | s]; cbn; intros H; try reflexivity.
  - now destruct b.
  - apply Z.eqb_refl.
  - apply String.eqb_refl.
Qed.

Lemma py_eqb_trans x y z : py_eqb x y = true -> py_eqb y z = true -> py_eqb x z = true.
Proof.
  destruct x as [| a | a | a], y as [| b | b | b], z as [| c | c | c]; cbn;
    try discriminate; try reflexivity;
    rewrite ?Z.eqb_eq, ?String.eqb_eq, ?Bool.eqb_true_iff; intros; subst;
    try reflexivity; try (destruct a, c; cbn in *; congruence);
    try (destruct a, b; cbn in *; congruence);
    try (destruct b, c; cbn in *; congruence); try (destruct b; reflexivity).
Qed.

Lemma dict_setitem_items (d : OrderedDict CustomModelEntry) k v :
  Forall item_complete d -> item_complete (k, v) -> Forall item_complete (dict_setitem d k v).
Proof.
  intros Hd (Hn & Hb & Hf & Ht & Hk). cbn in Hn, Hb, Hf, Ht, Hk.
  induction d as [| [k' v'] d IH]; cbn; [repeat constructor; assumption |].
  inversion Hd as [| ? ? Hhd Htl]; subst.
  destruct (py_eqb k' k) eqn:E.
  - constructor; [| assumption]. repeat split; cbn; try assumption.
    now apply (py_eqb_trans k' k (cm_name v)).
  - constructor; [assumption | now apply IH].
Qed.

Lemma collected_items models d :
  Forall item_complete d -> Forall item_complete (collected models d).
Proof.
  revert d. induction models as [| model rest IH]; intros d Hd; cbn; [assumption |].
  destruct (complete model) eqn:E; [| now apply IH].
  apply IH. apply dict_setitem_items; [assumption |].
  unfold complete in E. apply andb_true_iff in E as [E Hf]. apply andb_true_iff in E as [Hn Hb].
  repeat split; cbn; try assumption. now apply py_eqb_refl_truthy.
Qed.

Lemma str_truthy_app (a b : string) : str_truthy b = true -> str_truthy (a +:+ b) = true.
Proof. destruct a; cbn; [trivial | reflexivity]. Qed.

(** [prepare_custom_models] in closed form. *)
Lemma prepare_custom_models_state st :
  (custom_models_set st = true ->
   environ (exec (prepare_custom_models repr) st) = environ st
   /\ files (exec (prepare_custom_models repr) st) = files st)
  /\ (custom_models_set st = false ->
      environ (exec (prepare_custom_models repr) st)
      = <["HORDELIB_CUSTOM_MODELS" := custom_models_json st]> (environ st)
      /\ files (exec (prepare_custom_models repr) st)
         = match collected (custom_models (self_fields st)) [] with
           | [] => delete (custom_models_json st) (files st)
           | d => <[custom_models_json st := JsonDump d]> (files st)
           end).
Proof.
  unfold custom_models_set, custom_models_json, exec, prepare_custom_models, mbind,
    Method_bind, getenv, get_self.
  split; intros H; rewrite H; [split; reflexivity |].
  destruct (collect_custom_models_state (custom_models (self_fields st)) [] st)
    as (H1 & H2 & H3 & H4).
  destruct (collect_custom_models repr (custom_models (self_fields st)) [] st)
    as [d st1]. cbn in H1, H2, H3, H4. subst d.
  unfold getcwd. rewrite H4.
  destruct (collected (custom_models (self_fields st)) []) as [| item d] eqn:E.
  - rewrite bool_decide_eq_false_2 by (cbn; lia).
    unfold path_exists, when, remove, setenv, mret, Method_ret. cbn.
    rewrite H3. case_bool_decide as Hex; cbn; rewrite H2, H3; [split; reflexivity |].
    split; [reflexivity |]. symmetry. apply delete_id.
    destruct (files st !! (cwd st +:+ "/custom_models.json")) eqn:El; [| reflexivity].
    exfalso. apply Hex. eauto.
  - rewrite bool_decide_eq_true_2 by (cbn; lia).
    unfold write_file, setenv. cbn. now rewrite H2, H3.
Qed.

(** [load_custom_models] in closed form. *)
Lemma load_custom_models_state st :
  environ (exec load_custom_models st)
  = (if negb (custom_models_set st) && bool_decide (is_Some (files st !! custom_models_json st))
     then <["HORDELIB_CUSTOM_MODELS" := custom_models_json st]> (environ st)
     else environ st)
  /\ files (exec load_custom_models st) = files st.
Proof.
  unfold custom_models_set, custom_models_json, exec, load_custom_models, mbind,
    Method_bind, getcwd, getenv, path_exists, when, setenv, logger, mret, Method_ret.
  cbn.
  destruct (negb (env_truthy (environ st !! "HORDELIB_CUSTOM_MODELS"))
            && bool_decide (is_Some (files st !! (cwd st +:+ "/custom_models.json"))));
    split; reflexivity.
Qed.

Lemma prepare_custom_models_sets st :
  custom_models_set (exec (prepare_custom_models repr) st) = true.
Proof.
  destruct (prepare_custom_models_state st) as [Hset Hunset].
  destruct (custom_models_set st) eqn:E.
  - unfold custom_models_set in *. now rewrite (proj1 (Hset eq_refl)).
  - unfold custom_models_set. rewrite (proj1 (Hunset eq_refl)), lookup_insert_eq.
    cbn. now apply str_truthy_app.
Qed.

(** With [HORDELIB_CUSTOM_MODELS] set and not empty,
    [prepare_custom_models] changes neither the environment nor the
    files, whatever the custom models of the configuration are. *)
Theorem prepare_custom_models_already_set st :
  custom_models_set st = true ->
  environ (exec (prepare_custom_models repr) st) = environ st
  /\ files (exec (prepare_custom_models repr) st) = files st.
Proof. apply prepare_custom_models_state. Qed.

(** Otherwise it points [HORDELIB_CUSTOM_MODELS] at
    [custom_models.json] of the working directory, also when it writes
    no file: the file is there afterwards exactly when some entry is
    complete (a file left from before is removed). No other variable and
    no other file is touched. *)
Theorem prepare_custom_models_publishes st :
  custom_models_set st = false ->
  environ (exec (prepare_custom_models repr) st) !! "HORDELIB_CUSTOM_MODELS"
  = Some (custom_models_json st)
  /\ (forall k, k <> "HORDELIB_CUSTOM_MODELS" ->
        environ (exec (prepare_custom_models repr) st) !! k = environ st !! k)
  /\ (files (exec (prepare_custom_models repr) st) !! custom_models_json st = None
      <-> Forall (fun model => complete model = false) (custom_models (self_fields st)))
  /\ (forall p, p <> custom_models_json st ->
        files (exec (prepare_custom_models repr) st) !! p = files st !! p).
Proof.
  intros H. destruct (proj2 (prepare_custom_models_state st) H) as [-> ->].
  split; [apply lookup_insert_eq |].
  split; [intros k Hk; now apply lookup_insert_ne |].
  rewrite <- collected_nil.
  destruct (collected (custom_models (self_fields st)) []) as [| item d].
  - split; [split; [intros _; reflexivity | intros _; apply lookup_delete_eq] |].
    intros p Hp. now apply lookup_delete_ne.
  - split; [rewrite lookup_insert_eq; split; discriminate |].
    intros p Hp. now apply lookup_insert_ne.
Qed.

(** What it writes: a dictionary with at least one item and at most one
    item per entry of the configuration, every item with a name, a
    baseline and a file path, of type ["ckpt"], under its name. *)
Theorem prepare_custom_models_items st content :
  custom_models_set st = false ->
  files (exec (prepare_custom_models repr) st) !! custom_models_json st = Some content ->
  exists d,
    content = JsonDump d
    /\ d <> []
    /\ (length d <= length (custom_models (self_fields st)))%nat
    /\ Forall item_complete d.
Proof.
  intros H. destruct (proj2 (prepare_custom_models_state st) H) as [_ ->].
  pose proof (collected_length (custom_models (self_fields st)) []) as Hlen.
  pose proof (collected_items (custom_models (self_fields st)) []
                (List.Forall_nil item_complete)) as Hitems.
  destruct (collected (custom_models (self_fields st)) []) as [| item d].
  - rewrite lookup_delete_eq. discriminate.
  - rewrite lookup_insert_eq. intros [= <-]. eexists. split; [reflexivity |].
    split; [discriminate |]. split; [cbn in *; lia | assumption].
Qed.

(** After [prepare_custom_models], neither a second
    [prepare_custom_models] nor [load_custom_models] changes the
    environment or the files. *)
Theorem prepare_custom_models_idempotent st :
  environ (exec (prepare_custom_models repr) (exec (prepare_custom_models repr) st))
  = environ (exec (prepare_custom_models repr) st)
  /\ files (exec (prepare_custom_models repr) (exec (prepare_custom_models repr) st))
     = files (exec (prepare_custom_models repr) st)
  /\ environ (exec load_custom_models (exec (prepare_custom_models repr) st))
     = environ (exec (prepare_custom_models repr) st)
  /\ files (exec load_custom_models (exec (prepare_custom_models repr) st))
     = files (exec (prepare_custom_models repr) st).
Proof.
  pose proof (prepare_custom_models_sets st) as Hset.
  destruct (proj1 (prepare_custom_models_state (exec (prepare_custom_models repr) st)) Hset)
    as [-> ->].
  destruct (load_custom_models_state (exec (prepare_custom_models repr) st)) as [-> ->].
  rewrite Hset. repeat split.
Qed.

End Facts.

Lemma prepare_custom_models_already_set_witness :
  environ (exec (prepare_custom_models (fun _ => "{...}"))
             (state_with_environ {[ "HORDELIB_CUSTOM_MODELS" := "/data/custom_models.json" ]}
                (example_settings_with_models [example_custom_model])))
  = {[ "HORDELIB_CUSTOM_MODELS" := "/data/custom_models.json" ]}
  /\ files (exec (prepare_custom_models (fun _ => "{...}"))
              (state_with_environ {[ "HORDELIB_CUSTOM_MODELS" := "/data/custom_models.json" ]}
                 (example_settings_with_models [example_custom_model])))
     = ∅.
Proof.
  assert (H : custom_models_set
                (state_with_environ
                   {[ "HORDELIB_CUSTOM_MODELS" := "/data/custom_models.json" ]}
                   (example_settings_with_models [example_custom_model])) = true).
  { unfold custom_models_set. cbn [environ state_with_environ].
    now rewrite lookup_singleton_eq. }
  exact (prepare_custom_models_already_set (fun _ => "{...}")
           (state_with_environ {[ "HORDELIB_CUSTOM_MODELS" := "/data/custom_models.json" ]}
              (example_settings_with_models [example_custom_model])) H).
Defined.

Lemma prepare_custom_models_publishes_witness :
  environ (exec (prepare_custom_models (fun _ => "{...}"))
             (fresh_state (example_settings_with_models [example_incomplete_model])))
    !! "HORDELIB_CUSTOM_MODELS"
  = Some "/worker/custom_models.json"
  /\ files (exec (prepare_custom_models (fun _ => "{...}"))
              (fresh_state (example_settings_with_models [example_incomplete_model])))
       !! "/worker/custom_models.json"
     = None.
Proof.
  destruct (prepare_custom_models_publishes (fun _ => "{...}")
              (fresh_state (example_settings_with_models [example_incomplete_model])))
    as (Henv & _ & Hfile & _).
  - unfold custom_models_set. cbn [environ fresh_state]. now rewrite lookup_empty.
  - split; [exact Henv |]. apply Hfile. repeat constructor.
Defined.

Lemma prepare_custom_models_items_witness :
  exists d,
    JsonDump
      [(PStr "my-model",
        {| cm_name := PStr "my-model"; cm_baseline := PStr "stable_diffusion_xl";
           cm_type := "ckpt";
           cm_config_files_path := PStr "/models/my-model.safetensors" |})]
    = JsonDump d
    /\ d <> []
    /\ (length d <= 2)%nat
    /\ Forall item_complete d.
Proof.
  apply (prepare_custom_models_items (fun _ => "{...}")
           (fresh_state
              (example_settings_with_models [example_incomplete_model; example_custom_model]))).
  - unfold custom_models_set. cbn [environ fresh_state]. now rewrite lookup_empty.
  - vm_compute. reflexivity.
Defined.

End CustomModelsFacts.

(** ** More on [save] *)

Module SaveFacts.
Import BridgeData Assertions.

(** [save] writes the fields to the file, creates the YAML loader if
    there is none, and touches neither another file nor the
    environment; saving again to the same file changes nothing more. *)
Theorem save_writes_fields (file_path : string) (st : PyState) :
  files (exec (save file_path) st) !! file_path = Some (YamlDump (self_fields st))
  /\ (forall p, p <> file_path -> files (exec (save file_path) st) !! p = files st !! p)
  /\ environ (exec (save file_path) st) = environ st
  /\ _yaml_loader (exec (save file_path) st) = Some YAML_loader
  /\ exec (save file_path) (exec (save file_path) st) = exec (save file_path) st.
Proof.
  unfold save, exec, mbind, Method_bind, get_yaml_loader, when, set_yaml_loader, get_self,
    write_file, mret, Method_ret.
  destruct st as [self l y e c f lg]. destruct y as [[] |]; cbn.
  - rewrite insert_insert_eq. repeat split; try reflexivity.
    + apply lookup_insert_eq.
    + intros p Hp. now apply lookup_insert_ne.
  - rewrite insert_insert_eq. repeat split; try reflexivity.
    + apply lookup_insert_eq.
    + intros p Hp. now apply lookup_insert_ne.
Qed.

End SaveFacts.

(** ** More on the entry points *)

Module EntryPointOutcomes.
Import EntryPoints Assertions.

Lemma guarded_caught (body : Exec) (st : ProcState) :
  caught (snd (guarded body st))
  = (caught (snd (body (redirected st))) ++ reported (fst (body (redirected st))))%list.
Proof.
  unfold guarded, with_, logger_catch, redirect_stdout, redirect_stderr, redirected.
  cbn. destruct (body _) as [[| e] st2]; cbn; [now rewrite app_nil_r |].
  destruct (issubclass e "Exception"); cbn; [reflexivity | now rewrite app_nil_r].
Qed.

(** Both entry points put [sys.stdout] and [sys.stderr] back as they
    were, whether [main_loop] returns or raises, and whatever it did to
    the two streams. *)
Theorem entry_points_restore_streams
    (main_loop : WorkerProcess -> Exec)
    (process_id : Z) (process_message_queue : ProcessQueue) (pipe_connection : Connection)
    (inference_semaphore : Semaphore) (disk_lock : Lock) (cpu_only : option bool)
    (st : ProcState) :
  sys_stdout (snd (start_inference_process main_loop process_id process_message_queue
                     pipe_connection inference_semaphore disk_lock st)) = sys_stdout st
  /\ sys_stderr (snd (start_inference_process main_loop process_id process_message_queue
                        pipe_connection inference_semaphore disk_lock st)) = sys_stderr st
  /\ sys_stdout (snd (start_safety_process main_loop process_id process_message_queue
                        pipe_connection disk_lock cpu_only st)) = sys_stdout st
  /\ sys_stderr (snd (start_safety_process main_loop process_id process_message_queue
                        pipe_connection disk_lock cpu_only st)) = sys_stderr st.
Proof.
  unfold start_inference_process, start_safety_process. cbn zeta.
  repeat split;
    match goal with
    | |- _ (snd (with_ _ (with_ _ (with_ _ ?body)) st)) = _ =>
        apply (EntryPointFacts.guarded_restores_streams body st)
    end.
Qed.

(** What an entry point does with [main_loop]: it runs it on the worker
    it built, with [sys.stdout] and [sys.stderr] set to [None]; it
    returns normally when [main_loop] returns or raises an instance of
    [Exception], which is reported exactly once; any other exception
    leaves the entry point and is not reported. *)
Theorem entry_points_outcome
    (process_id : Z) (process_message_queue : ProcessQueue) (pipe_connection : Connection)
    (inference_semaphore : Semaphore) (disk_lock : Lock) (cpu_only : option bool) :
  (exists w,
     class w = HordeInferenceProcess
     /\ forall main_loop st,
          fst (start_inference_process main_loop process_id process_message_queue
                 pipe_connection inference_semaphore disk_lock st)
          = after_catch (fst (main_loop w (redirected st)))
          /\ caught (snd (start_inference_process main_loop process_id
                            process_message_queue pipe_connection inference_semaphore
                            disk_lock st))
             = (caught (snd (main_loop w (redirected st)))
                ++ reported (fst (main_loop w (redirected st))))%list)
  /\ (exists w,
        class w = HordeSafetyProcess
        /\ forall main_loop st,
             fst (start_safety_process main_loop process_id process_message_queue
                    pipe_connection disk_lock cpu_only st)
             = after_catch (fst (main_loop w (redirected st)))
             /\ caught (snd (start_safety_process main_loop process_id
                               process_message_queue pipe_connection disk_lock cpu_only
                               st))
                = (caught (snd (main_loop w (redirected st)))
                   ++ reported (fst (main_loop w (redirected st))))%list).
Proof.
  unfold start_inference_process, start_safety_process. cbn zeta.
  split.
  - exists {| class := HordeInferenceProcess;
              init_kwargs :=
                [("process_id", OInt process_id);
                 ("process_message_queue", OQueue process_message_queue);
                 ("pipe_connection", OConnection pipe_connection);
                 ("inference_semaphore", OSemaphore inference_semaphore);
                 ("disk_lock", OLock disk_lock)] |}.
    split; [reflexivity |]. intros main_loop st.
    split; [apply EntryPointFacts.guarded_outcome | apply guarded_caught].
  - exists {| class := HordeSafetyProcess;
              init_kwargs :=
                [("process_id", OInt process_id);
                 ("process_message_queue", OQueue process_message_queue);
                 ("pipe_connection", OConnection pipe_connection);
                 ("disk_lock", OLock disk_lock);
                 ("cpu_only", OBool (default true cpu_only))] |}.
    split; [reflexivity |]. intros main_loop st.
    split; [apply EntryPointFacts.guarded_outcome | apply guarded_caught].
Qed.

End EntryPointOutcomes.
